(** * CustomerDocs semantic search and its drift harness

    A shallow embedding of [tools/CustomerDocs/semantic_search.py] (class
    [CustomerDocsSemanticSearch]) and of [tests/CustomerDocs/test_rag.py]
    (function [run_drift_tests]), with the properties of the retrieval
    subsystem stated over it.

    Python floats are IEEE binary64 values: they are modelled by Rocq's
    primitive floats, so [1 - distance] and [similarity >= threshold] are the
    operations the interpreter runs.  Python exceptions are values of [exn];
    a call either returns or raises ([py]).  The embedding model and the
    Chroma collection are collaborators outside the repository: they appear
    as records of operations ([Model], [Collection]) that may raise. *)

From Stdlib Require Import ZArith Floats Sorted.
From stdpp Require Import base option list strings gmap.

Set Warnings "-inexact-float".
Local Open Scope Z_scope.

(** ** Python outcomes *)

(** An exception: its class name and the text [str(e)] gives. *)
Record exn := Exn { exn_class : string; exn_str : string }.

Definition KeyError (key : string) : exn := Exn "KeyError" ("'" +:+ key +:+ "'").
Definition IndexError : exn := Exn "IndexError" "list index out of range".
Definition AttributeError (msg : string) : exn := Exn "AttributeError" msg.

(** The outcome of evaluating a Python expression or call. *)
Inductive py (A : Type) : Type :=
  | Ret (a : A)
  | Raise (e : exn).
Arguments Ret {A} a.
Arguments Raise {A} e.

Global Instance py_ret : MRet py := fun _ a => Ret a.
Global Instance py_bind : MBind py := fun _ _ k m =>
  match m with
  | Ret a => k a
  | Raise e => Raise e
  end.
Global Instance py_fmap : FMap py := fun _ _ f m =>
  match m with
  | Ret a => Ret (f a)
  | Raise e => Raise e
  end.

(** [try: body / except Exception as e: handler e]. *)
Definition try_except {A} (body : py A) (handler : exn -> py A) : py A :=
  match body with
  | Ret a => Ret a
  | Raise e => handler e
  end.

(** Code that also mutates a state [St]: the state survives a raise. *)
Definition pyst (St A : Type) : Type := St -> py A * St.

Global Instance pyst_ret {St} : MRet (pyst St) := fun _ a st => (Ret a, st).
Global Instance pyst_bind {St} : MBind (pyst St) := fun _ _ k m st =>
  match m st with
  | (Ret a, st') => k a st'
  | (Raise e, st') => (Raise e, st')
  end.

Definition lift_py {St A} (m : py A) : pyst St A := fun st => (m, st).
Definition modify_st {St} (f : St -> St) : pyst St unit :=
  fun st => (Ret tt, f st).

Definition try_except_st {St A} (body : pyst St A)
    (handler : exn -> pyst St A) : pyst St A := fun st =>
  match body st with
  | (Ret a, st') => (Ret a, st')
  | (Raise e, st') => handler e st'
  end.

Definition returns {A} (m : py A) : bool :=
  match m with Ret _ => true | Raise _ => false end.

(** [xs[i]] for a non-negative index. *)
Definition index {A} (xs : list A) (i : nat) : py A :=
  match xs !! i with
  | Some x => Ret x
  | None => Raise IndexError
  end.

(** [needle in hay] on strings. *)
Fixpoint str_contains (needle hay : string) : bool :=
  String.prefix needle hay ||
  match hay with
  | EmptyString => false
  | String _ rest => str_contains needle rest
  end.

(** ** Data model *)

(** The values the dict of [get_stats] holds. *)
Inductive pyval :=
  | VInt (z : Z)
  | VStr (s : string).

(** Metadata values: the scalars a document's metadata mapping may hold. *)
Inductive scalar :=
  | SStr (s : string)
  | SInt (z : Z)
  | SFloat (f : float)
  | SBool (b : bool).

Abbreviation metadata := (gmap string scalar).

(** A document handed to [add_documents]: a dict with 'id' and 'content',
    and an optional 'metadata'. *)
Record document := Document {
  doc_id : string;
  doc_content : string;
  doc_metadata : option metadata
}.

(** One entry of the list [search] returns (a dict with exactly these keys). *)
Record search_result := SearchResult {
  id : string;
  content : string;
  result_metadata : metadata;
  similarity : float;
  distance : float
}.

(** What [collection.query] answers: one inner list per query embedding,
    column by column. *)
Record query_result := QueryResult {
  ids : list (list string);
  distances : list (list float);
  documents : list (list string);
  metadatas : list (list (option metadata))
}.

(** ** Collaborators *)

(** The sentence-transformers model: [model.encode(texts).tolist()]. *)
Record Model := { encode : list string -> py (list (list float)) }.

(** A Chroma collection over a store state [S].  [coll_add] may change the
    store and may raise; the other two only read. *)
Record Collection (S : Type) := {
  coll_query : S -> list (list float) -> Z -> py query_result;
  coll_add : S -> list string -> list (list float) -> list string ->
             list metadata -> py unit * S;
  coll_count : S -> py Z
}.
Arguments coll_query {S}.
Arguments coll_add {S}.
Arguments coll_count {S}.

(** What the constructor reaches for: loading a model by name and opening
    the persistent client's collection. *)
Record Env (S : Type) := {
  SentenceTransformer : string -> py Model;
  get_or_create_collection : string -> py (Collection S)
}.
Arguments SentenceTransformer {S}.
Arguments get_or_create_collection {S}.

(** ** CustomerDocsSemanticSearch *)

Section Engine.
Context {S : Type}.

(** The attributes of [self]. *)
Record engine := Engine {
  db_type : string;
  embedding_model : string;
  model : Model;
  collection : option (Collection S)
}.

(** [_initialize_components]: any exception is logged and re-raised. *)
Definition _initialize_components (env : Env S)
    (db_type embedding_model : string) : py engine :=
  try_except
    (m ← (if String.eqb embedding_model "sentence-transformers"
          then SentenceTransformer env "all-MiniLM-L6-v2"
          else if String.eqb embedding_model "bge-small-en"
          then SentenceTransformer env "BAAI/bge-small-en-v1.5"
          else SentenceTransformer env "all-MiniLM-L6-v2");
     c ← (if String.eqb db_type "chroma"
          then Some <$> get_or_create_collection env "CustomerDocs_documents"
          else Ret None);
     Ret (Engine db_type embedding_model m c))
    (fun e => Raise e).

(** [CustomerDocsSemanticSearch(db_type="sqlite",
    embedding_model="sentence-transformers")]. *)
Definition __init__ (env : Env S) (db_type embedding_model : option string)
    : py engine :=
  _initialize_components env (default "sqlite" db_type)
    (default "sentence-transformers" embedding_model).

(** [self.collection.<method>]: attribute access on [None] raises. *)
Definition the_collection (self : engine) : py (Collection S) :=
  match collection self with
  | Some c => Ret c
  | None => Raise (AttributeError "'NoneType' object has no attribute")
  end.

(** [_mock_search]. *)
Definition _mock_search (query : string) (top_k : Z) : list search_result :=
  [ SearchResult "mock_1" ("Mock result for query: " +:+ query)
      {[ "title" := SStr "Mock Document"; "source" := SStr "test" ]}
      0.85%float 0.15%float ].

(** The body of the formatting loop of [search] at index [i]: the
    distance is read first; id, document and metadata are read only when
    the entry passes the threshold. *)
Definition format_entry (results : query_result) (threshold : float)
    (i : nat) : py (option search_result) :=
  ds ← index (distances results) 0;
  distance ← index ds i;
  let similarity := (1 - distance)%float in
  if (threshold <=? similarity)%float then
    ids0 ← index (ids results) 0;
    id_i ← index ids0 i;
    docs ← index (documents results) 0;
    doc_i ← index docs i;
    ms ← index (metadatas results) 0;
    m_i ← index ms i;
    Ret (Some (SearchResult id_i doc_i
                 (match m_i with
                  | Some m => m
                  | None => ∅
                  end)
                 similarity distance))
  else Ret None.

(** [for i in range(...)]: [formatted_results] grows by [append]. *)
Fixpoint format_loop (results : query_result) (threshold : float)
    (range : list nat) (formatted_results : list search_result)
    : py (list search_result) :=
  match range with
  | [] => Ret formatted_results
  | i :: range' =>
      r ← format_entry results threshold i;
      format_loop results threshold range'
        (match r with
         | Some x => formatted_results ++ [x]
         | None => formatted_results
         end)
  end.

Definition format_results (results : query_result) (threshold : float)
    : py (list search_result) :=
  ids0 ← index (ids results) 0;
  format_loop results threshold (seq 0 (length ids0)) [].

(** [search(query, top_k, threshold)].  The store is only read, so the
    store state [st] is an argument and not a result. *)
Definition search (self : engine) (st : S) (query : string) (top_k : Z)
    (threshold : float) : py (list search_result) :=
  try_except
    (query_embedding ← encode (model self) [query];
     if String.eqb (db_type self) "chroma" then
       c ← the_collection self;
       results ← coll_query c st query_embedding top_k;
       format_results results threshold
     else
       Ret (_mock_search query top_k))
    (fun e => Ret []).

(** The defaults of [search]'s signature. *)
Definition top_k_default : Z := 5.
Definition threshold_default : float := 0.7%float.

(** [search(query)]: both keyword arguments take their defaults. *)
Definition search_query_only (self : engine) (st : S) (query : string)
    : py (list search_result) :=
  search self st query top_k_default threshold_default.

(** [[doc.get('metadata', {}) for doc in documents]]. *)
Definition metadata_column (documents : list document) : list metadata :=
  (fun doc => default ∅ (doc_metadata doc)) <$> documents.

(** [add_documents(documents)].  The store may change, so the store state
    is threaded.  The function returns [True] from inside the [try],
    [False] from the handler, and falls off its end (Python's [None])
    when [db_type] is not "chroma". *)
Definition add_documents (self : engine) (documents : list document)
    : pyst S (option bool) :=
  try_except_st
    (if String.eqb (db_type self) "chroma" then
       let ids : list string := doc_id <$> documents in
       let contents : list string := doc_content <$> documents in
       let metadatas : list metadata :=
         (fun doc => default ∅ (doc_metadata doc)) <$> documents in
       embeddings ← lift_py (encode (model self) contents);
       c ← lift_py (the_collection self);
       _ ← ((fun st => coll_add c st ids embeddings contents metadatas)
             : pyst S unit);
       mret (Some true)
     else mret None)
    (fun e => mret (Some false)).

(** The dict [get_stats] returns on its Chroma path. *)
Definition stats_record (self : engine) (count : Z) : gmap string pyval :=
  {[ "total_documents" := VInt count;
     "database_type" := VStr (db_type self);
     "embedding_model" := VStr (embedding_model self) ]}.

Definition stats_error : gmap string pyval :=
  {[ "error" := VStr "Unable to retrieve statistics" ]}.

(** [get_stats()]: the [try] either returns the record ([Some]) or is
    left, normally or through the handler ([None]); the last line then
    returns the error dict. *)
Definition get_stats (self : engine) (st : S) : py (gmap string pyval) :=
  returned ←
    try_except
      (if String.eqb (db_type self) "chroma" then
         c ← the_collection self;
         count ← coll_count c st;
         Ret (Some (stats_record self count))
       else Ret None)
      (fun e => Ret None);
  match returned with
  | Some record => Ret record
  | None => Ret stats_error
  end.

End Engine.
Arguments engine : clear implicits.

(** ** The drift harness, [run_drift_tests] *)

(** A test case of [rag_drift_test.yaml]; 'expected_similarity' may be
    absent. *)
Record test_case := TestCase {
  name : string;
  input : string;
  expected_similarity : option float
}.

Inductive status := PASSED | FAILED | ERROR.

Global Instance status_eq_dec : EqDecision status.
Proof. solve_decision. Defined.

(** The text under 'reason'.  [SimilarityBelow s t] is the formatted string
    "Similarity {s} below threshold {t}". *)
Inductive reason_text :=
  | Text (s : string)
  | SimilarityBelow (similarity threshold : float).

(** One entry of [results['tests']]: besides 'name' and 'status' it holds
    either 'similarity' or 'reason'. *)
Record test_record := TestRecord {
  test_name : string;
  test_status : status;
  test_similarity : option float;
  test_reason : option reason_text
}.

(** The [results] dict. *)
Record results := Results {
  passed : Z;
  failed : Z;
  tests : list test_record
}.

Definition incr_passed (r : results) : results :=
  Results (passed r + 1) (failed r) (tests r).
Definition incr_failed (r : results) : results :=
  Results (passed r) (failed r + 1) (tests r).
Definition append_test (t : test_record) (r : results) : results :=
  Results (passed r) (failed r) (tests r ++ [t]).

Section DriftHarness.
(** [search.search(q)] for the object [search] bound in [run_drift_tests]. *)
Variable search_call : string -> py (list search_result).

(** The [try] block of one loop iteration, over the mutable [results]. *)
Definition case_try (test_case : test_case) : pyst results unit :=
  search_results ← lift_py (search_call (input test_case));
  match search_results with
  | [] =>
      if str_contains "no_results_handling" (name test_case) then
        _ ← modify_st incr_passed;
        modify_st (append_test
          (TestRecord (name test_case) PASSED None
             (Some (Text "Correctly handled no results"))))
      else
        _ ← modify_st incr_failed;
        modify_st (append_test
          (TestRecord (name test_case) FAILED None
             (Some (Text "No search results returned"))))
  | best_result :: _ =>
      if (default 0.7 (expected_similarity test_case)
            <=? similarity best_result)%float then
        _ ← modify_st incr_passed;
        modify_st (append_test
          (TestRecord (name test_case) PASSED
             (Some (similarity best_result)) None))
      else
        _ ← modify_st incr_failed;
        threshold ← lift_py
          (match expected_similarity test_case with
           | Some t => Ret t
           | None => Raise (KeyError "expected_similarity")
           end);
        modify_st (append_test
          (TestRecord (name test_case) FAILED None
             (Some (SimilarityBelow (similarity best_result) threshold))))
  end.

(** One loop iteration: the [try] block and its handler. *)
Definition run_case (test_case : test_case) : pyst results unit :=
  try_except_st (case_try test_case)
    (fun e =>
       _ ← modify_st incr_failed;
       modify_st (append_test
         (TestRecord (name test_case) ERROR None
            (Some (Text (exn_str e)))))).

(** [for test_case in config['test_cases']]. *)
Fixpoint run_cases (test_cases : list test_case) : pyst results unit :=
  match test_cases with
  | [] => mret tt
  | test_case :: rest => _ ← run_case test_case; run_cases rest
  end.

(** The [results] dict after the loop. *)
Definition suite_results (test_cases : list test_case) : results :=
  (run_cases test_cases (Results 0 0 [])).2.

(** [results['failed'] == 0]. *)
Definition verdict (r : results) : bool := failed r =? 0.
End DriftHarness.

(** [run_drift_tests()], given what [load_test_config()] read and the
    environment the engine is built in.  The engine is built with its
    default arguments, outside any [try]. *)
Definition run_drift_tests {S} (env : Env S) (st : S)
    (test_cases : list test_case) : py bool :=
  search ← __init__ env None None;
  Ret (verdict (suite_results (search_query_only search st) test_cases)).

(** The [results] dict [run_drift_tests] has built when it prints its
    summary (line 85) and on which its return value is computed. *)
Definition drift_results {S} (env : Env S) (st : S)
    (test_cases : list test_case) : py results :=
  search ← __init__ env None None;
  Ret (suite_results (search_query_only search st) test_cases).

(** *** From the configuration file

    What [yaml.safe_load] hands over is a dict of dicts: any key may be
    missing.  The values that are present have the types of the suite
    format. *)

(** One entry of [config['test_cases']]. *)
Record case_dict := CaseDict {
  cd_name : option string;
  cd_input : option string;
  cd_expected_similarity : option float
}.

(** The document [load_test_config()] returns. *)
Record config_dict := ConfigDict {
  cfg_test_cases : option (list case_dict)
}.

(** [d[key]] on a dict. *)
Definition getitem {A} (key : string) (value : option A) : py A :=
  match value with
  | Some a => Ret a
  | None => Raise (KeyError key)
  end.

(** One loop iteration on a case as loaded.  [test_case['name']] is read
    by the [print] of line 37, before the [try]; [test_case['input']] is
    read inside it, as the argument of the search call. *)
Definition run_case_dict (search_call : string -> py (list search_result))
    (cd : case_dict) : pyst results unit :=
  name ← lift_py (getitem "name" (cd_name cd));
  try_except_st
    (input ← lift_py (getitem "input" (cd_input cd));
     case_try search_call
       (TestCase name input (cd_expected_similarity cd)))
    (fun e =>
       _ ← modify_st incr_failed;
       modify_st (append_test
         (TestRecord name ERROR None (Some (Text (exn_str e)))))).

Fixpoint run_case_dicts (search_call : string -> py (list search_result))
    (cases : list case_dict) : pyst results unit :=
  match cases with
  | [] => mret tt
  | cd :: rest =>
      _ ← run_case_dict search_call cd; run_case_dicts search_call rest
  end.

(** [run_drift_tests()] from its first line: the configuration is loaded
    (line 25), the engine is built (line 26), [config['test_cases']] is
    read (line 36) and the loop runs; all of this outside any [try] but
    the one inside the loop. *)
Definition run_drift_tests_from {S} (load_test_config : py config_dict)
    (env : Env S) (st : S) : py bool :=
  config ← load_test_config;
  search ← __init__ env None None;
  test_cases ← getitem "test_cases" (cfg_test_cases config);
  match run_case_dicts (search_query_only search st) test_cases
          (Results 0 0 []) with
  | (Ret _, r) => Ret (verdict r)
  | (Raise e, _) => Raise e
  end.

(** A well-formed case as the dict it is loaded as. *)
Definition dict_of_case (tc : test_case) : case_dict :=
  CaseDict (Some (name tc)) (Some (input tc)) (expected_similarity tc).

(** ** The store's answer, entry by entry

    The store port answers a nearest-neighbour query with entries
    (id, distance, payload, metadata), delivered as four columns aligned
    by index.  [response_of] is that delivery; [to_result] and [meets] say,
    in the words of the design, what [search] makes of one entry. *)

Record entry := Entry {
  entry_id : string;
  entry_distance : float;
  entry_document : string;
  entry_metadata : option metadata
}.

Definition response_of (entries : list entry) : query_result :=
  QueryResult [entry_id <$> entries] [entry_distance <$> entries]
    [entry_document <$> entries] [entry_metadata <$> entries].

(** similarity = 1 - distance; a missing metadata mapping reads as the
    empty one. *)
Definition to_result (e : entry) : search_result :=
  SearchResult (entry_id e) (entry_document e) (default ∅ (entry_metadata e))
    (1 - entry_distance e)%float (entry_distance e).

(** The entry's similarity is at least the threshold. *)
Definition meets (threshold : float) (e : entry) : bool :=
  (threshold <=? 1 - entry_distance e)%float.

(** A store answer that keeps the port's contract. *)
Definition aligned (results : query_result) : Prop :=
  exists entries, results = response_of entries.

(** ** Collaborator doubles

    Small concrete models and collections, used to run the definitions
    above on explicit inputs. *)

Module Doubles.

(** A model that embeds every text as the same one-dimensional vector. *)
Definition model_ok : Model :=
  {| encode := fun texts => Ret ((fun _ => [1%float]) <$> texts) |}.

(** A model that cannot produce a vector. *)
Definition model_down : Model :=
  {| encode := fun _ => Raise (Exn "RuntimeError" "model unavailable") |}.

(** A stored row, with the distance the double reports for any query. *)
Record row := Row {
  row_id : string;
  row_distance : float;
  row_document : string;
  row_metadata : option metadata
}.

Definition column {A} (f : row -> A) (rows : list row) : list (list A) :=
  [f <$> rows].

Fixpoint has_dup (xs : list string) : bool :=
  match xs with
  | [] => false
  | x :: xs' => bool_decide (x ∈ xs') || has_dup xs'
  end.

(** An in-memory collection over a list of rows.  [query] answers the
    first [n_results] rows; [add] refuses an empty batch and a batch with
    a repeated id, as Chroma's argument validation does, and otherwise
    appends the batch. *)
Definition mem_collection : Collection (list row) :=
  {| coll_query := fun rows _ n_results =>
       let hits := take (Z.to_nat n_results) rows in
       Ret (QueryResult (column row_id hits) (column row_distance hits)
              (column row_document hits) (column row_metadata hits));
     coll_add := fun rows ids _ docs metas =>
       if bool_decide (ids = []) then
         (Raise (Exn "ValueError" "Expected IDs to be a non-empty list"),
          rows)
       else if has_dup ids then
         (Raise (Exn "DuplicateIDError" "Expected IDs to be unique"), rows)
       else
         (Ret tt,
          rows ++ zip_with (fun i dm => Row i 0%float dm.1 (Some dm.2))
                    ids (zip docs metas));
     coll_count := fun rows => Ret (Z.of_nat (length rows)) |}.

(** A collection whose backend cannot be reached. *)
Definition down_collection : Collection (list row) :=
  {| coll_query := fun _ _ _ =>
       Raise (Exn "ConnectionError" "store unreachable");
     coll_add := fun rows _ _ _ _ =>
       (Raise (Exn "ConnectionError" "store unreachable"), rows);
     coll_count := fun _ =>
       Raise (Exn "ConnectionError" "store unreachable") |}.

(** A collection that answers a query with misaligned columns. *)
Definition ragged_collection : Collection (list row) :=
  {| coll_query := fun _ _ _ =>
       Ret (QueryResult [["a"; "b"]] [[0.1; 0.5]%float] [["doc a"]]
              [[None; None]]);
     coll_add := fun rows _ _ _ _ => (Ret tt, rows);
     coll_count := fun rows => Ret (Z.of_nat (length rows)) |}.

(** A collection that answers with one distance for two ids. *)
Definition short_distances_answer : query_result :=
  QueryResult [["a"; "b"]] [[0.1%float]] [["doc a"; "doc b"]]
    [[None; None]].

Definition short_distances_collection : Collection (list row) :=
  {| coll_query := fun _ _ _ => Ret short_distances_answer;
     coll_add := fun rows _ _ _ _ => (Ret tt, rows);
     coll_count := fun rows => Ret (Z.of_nat (length rows)) |}.

Definition short_distances_engine : engine (list row) :=
  Engine "chroma" "sentence-transformers" model_ok
    (Some short_distances_collection).

Definition first_result : search_result :=
  SearchResult "d1" "refund policy: 30 day returns" ∅
    (1 - 0.1)%float 0.1%float.

Definition second_result : search_result :=
  SearchResult "d2" "shipping times" {[ "k" := SInt 1 ]}
    (1 - 0.5)%float 0.5%float.

Definition chroma_engine : engine (list row) :=
  Engine "chroma" "sentence-transformers" model_ok (Some mem_collection).
Definition sqlite_engine : engine (list row) :=
  Engine "sqlite" "sentence-transformers" model_ok None.

Definition model_down_engine : engine (list row) :=
  Engine "chroma" "sentence-transformers" model_down (Some mem_collection).
Definition store_down_engine : engine (list row) :=
  Engine "chroma" "sentence-transformers" model_ok (Some down_collection).
Definition sqlite_model_down_engine : engine (list row) :=
  Engine "sqlite" "sentence-transformers" model_down None.
Definition ragged_engine : engine (list row) :=
  Engine "chroma" "sentence-transformers" model_ok (Some ragged_collection).

Definition env_ok : Env (list row) :=
  {| SentenceTransformer := fun _ => Ret model_ok;
     get_or_create_collection := fun _ => Ret mem_collection |}.

Definition dup_batch : list document :=
  [ Document "dup" "first text" None; Document "dup" "second text" None ].

Definition two_entries : list entry :=
  [ Entry "d1" 0.1%float "refund policy: 30 day returns" None;
    Entry "d2" 0.5%float "shipping times" (Some {[ "k" := SInt 1 ]}) ].

(** The model loads, and then cannot embed. *)
Definition env_encode_fails : Env (list row) :=
  {| SentenceTransformer := fun _ => Ret model_down;
     get_or_create_collection := fun _ => Ret mem_collection |}.

(** The model cannot be loaded. *)
Definition env_no_model : Env (list row) :=
  {| SentenceTransformer := fun _ =>
       Raise (Exn "OSError" "model files not found");
     get_or_create_collection := fun _ => Ret mem_collection |}.

Definition two_rows : list row :=
  [ Row "d1" 0.1%float "refund policy: 30 day returns" None;
    Row "d2" 0.5%float "shipping times" (Some {[ "k" := SInt 1 ]}) ].

End Doubles.

(** ** Vocabulary for the statements below *)

(** The result [x] was read off row [i] of the store's answer: its id,
    content, metadata and distance are the ones at index [i] of the first
    inner list of each column, its similarity is [1 - distance], and that
    similarity reaches the threshold. *)
Definition from_row (results : query_result) (threshold : float) (i : nat)
    (x : search_result) : Prop :=
  (exists ds, distances results !! 0%nat = Some ds /\
              ds !! i = Some (distance x)) /\
  (exists ids0, ids results !! 0%nat = Some ids0 /\
                ids0 !! i = Some (id x)) /\
  (exists docs, documents results !! 0%nat = Some docs /\
                docs !! i = Some (content x)) /\
  (exists ms m, metadatas results !! 0%nat = Some ms /\ ms !! i = Some m /\
                result_metadata x = default ∅ m) /\
  similarity x = (1 - distance x)%float /\
  (threshold <=? similarity x)%float = true.

(** [d1 <= d2] as Python evaluates it. *)
Definition float_le (d1 d2 : float) : Prop := (d1 <=? d2)%float = true.

(** How many records of a report have a given status. *)
Definition count_status (s : status) (records : list test_record) : Z :=
  Z.of_nat (length (List.filter
    (fun t => bool_decide (test_status t = s)) records)).

(** What decides a case when the engine is the one [run_drift_tests]
    builds (db_type "sqlite"): if the model embeds the input, the mock
    result's similarity 0.85 against the expected similarity; if it does
    not, the marker in the case's name. *)
Definition default_case_passes (m : Model) (test_case : test_case) : bool :=
  match encode m [input test_case] with
  | Ret _ =>
      (default 0.7 (expected_similarity test_case) <=? 0.85)%float
  | Raise _ => str_contains "no_results_handling" (name test_case)
  end.

(** The sentence-transformers model the constructor loads for a requested
    [embedding_model]. *)
Definition model_name_for (embedding_model : string) : string :=
  if String.eqb embedding_model "bge-small-en" then "BAAI/bge-small-en-v1.5"
  else "all-MiniLM-L6-v2".

(** The columns [add_documents] hands to [collection.add]. *)
Definition add_call {S} (c : Collection S) (st : S)
    (documents : list document) (embeddings : list (list float))
    : py unit * S :=
  coll_add c st (doc_id <$> documents) embeddings
    (doc_content <$> documents) (metadata_column documents).

(** ** Facts about the building blocks *)

(** *** The order on floats *)

Module FloatOrder.

Lemma SFleb_trans (a b c : spec_float) :
  SFleb a b = true -> SFleb b c = true -> SFleb a c = true.
Proof.
  unfold SFleb, SFcompare.
  destruct a as [sa|sa| |sa ma ea], b as [sb|sb| |sb mb eb],
           c as [sc|sc| |sc mc ec];
    try (destruct sa); try (destruct sb); try (destruct sc);
    simpl; try congruence; try reflexivity.
  all: rewrite ?Pos.compare_cont_spec; simpl;
    destruct (Z.compare_spec ea eb), (Z.compare_spec eb ec),
             (Z.compare_spec ea ec);
    try congruence; try reflexivity; try lia; subst;
    destruct (Pos.compare_spec ma mb), (Pos.compare_spec mb mc),
             (Pos.compare_spec ma mc);
    simpl; try congruence; try reflexivity; try lia.
Qed.

(** [x <= y] and [y <= z] give [x <= z], NaN included (a comparison
    with NaN is false). *)
Lemma leb_trans (x y z : float) :
  (x <=? y)%float = true -> (y <=? z)%float = true ->
  (x <=? z)%float = true.
Proof. rewrite !leb_spec. apply SFleb_trans. Qed.

End FloatOrder.

(** *** The monads *)

Lemma bind_Ret {A B} (a : A) (k : A -> py B) : (Ret a ≫= k) = k a.
Proof. reflexivity. Qed.

Lemma bind_Raise {A B} (e : exn) (k : A -> py B) : (Raise e ≫= k) = Raise e.
Proof. reflexivity. Qed.

Lemma try_except_returns {A} (body : py A) (a : A) :
  exists r, try_except body (fun _ => Ret a) = Ret r.
Proof. destruct body; simpl; eauto. Qed.

Lemma index_Ret {A} (xs : list A) (i : nat) (x : A) :
  xs !! i = Some x -> index xs i = Ret x.
Proof. unfold index. intros ->. reflexivity. Qed.

Section SearchFacts.
Context {S : Type}.
Implicit Types (self : engine S) (st : S) (threshold : float).

Lemma format_entry_aligned entries threshold i e :
  entries !! i = Some e ->
  format_entry (response_of entries) threshold i =
    Ret (if meets threshold e then Some (to_result e) else None).
Proof.
  intros Hi. unfold format_entry, response_of, meets. simpl.
  assert (Hcol : forall A (f : entry -> A),
             index (f <$> entries) i = Ret (f e)).
  { intros A f. apply index_Ret. rewrite list_lookup_fmap, Hi. reflexivity. }
  rewrite !Hcol, bind_Ret.
  destruct (_ <=? _)%float; [|reflexivity].
  rewrite !bind_Ret. unfold to_result.
  destruct (entry_metadata e); reflexivity.
Qed.

(** The loop over the indices of the entries not yet visited. *)
Lemma format_loop_aligned threshold todo : forall done acc,
  format_loop (response_of (done ++ todo)) threshold
    (seq (length done) (length todo)) acc =
  Ret (acc ++ (to_result <$> List.filter (meets threshold) todo)).
Proof.
  induction todo as [|e todo IH]; intros done acc; simpl.
  - rewrite app_nil_r. reflexivity.
  - rewrite (format_entry_aligned _ _ _ e)
      by (apply list_lookup_middle; reflexivity).
    rewrite bind_Ret.
    replace (done ++ e :: todo) with ((done ++ [e]) ++ todo)
      by (rewrite <- app_assoc; reflexivity).
    replace (Datatypes.S (length done)) with (length (done ++ [e]))
      by (rewrite length_app; simpl; lia).
    rewrite IH. destruct (meets threshold e); simpl.
    + rewrite <- app_assoc. reflexivity.
    + reflexivity.
Qed.

Lemma format_results_aligned threshold entries :
  format_results (response_of entries) threshold =
  Ret (to_result <$> List.filter (meets threshold) entries).
Proof.
  unfold format_results. simpl. rewrite length_fmap.
  apply (format_loop_aligned threshold entries [] []).
Qed.

(** Whatever the store answers, an entry enters the result only with a
    similarity that reaches the threshold. *)
Lemma format_entry_meets results threshold i x :
  format_entry results threshold i = Ret (Some x) ->
  (threshold <=? similarity x)%float = true.
Proof.
  unfold format_entry.
  destruct (index (distances results) 0) as [ds|]; [|discriminate].
  rewrite bind_Ret.
  destruct (index ds i) as [d|]; [|discriminate].
  rewrite bind_Ret.
  destruct (threshold <=? 1 - d)%float eqn:Hle; [|discriminate].
  destruct (index (ids results) 0) as [ids0|]; [|discriminate].
  rewrite bind_Ret.
  destruct (index ids0 i); [|discriminate]. rewrite bind_Ret.
  destruct (index (documents results) 0) as [docs|]; [|discriminate].
  rewrite bind_Ret.
  destruct (index docs i); [|discriminate]. rewrite bind_Ret.
  destruct (index (metadatas results) 0) as [ms|]; [|discriminate].
  rewrite bind_Ret.
  destruct (index ms i); [|discriminate]. rewrite bind_Ret.
  intros [= <-]. exact Hle.
Qed.

Lemma format_loop_meets results threshold range : forall acc l,
  format_loop results threshold range acc = Ret l ->
  Forall (fun x => (threshold <=? similarity x)%float = true) acc ->
  Forall (fun x => (threshold <=? similarity x)%float = true) l.
Proof.
  induction range as [|i range IH]; intros acc l; simpl.
  - intros [= <-]. auto.
  - destruct (format_entry results threshold i) as [[x|]|] eqn:Hi;
      rewrite ?bind_Ret, ?bind_Raise; try discriminate.
    + intros Hl Hacc. apply (IH _ _ Hl).
      apply Forall_app. split; [exact Hacc|].
      constructor; [|constructor].
      exact (format_entry_meets _ _ _ _ Hi).
    + intros Hl Hacc. exact (IH _ _ Hl Hacc).
Qed.

Lemma format_results_meets results threshold l :
  format_results results threshold = Ret l ->
  Forall (fun x => (threshold <=? similarity x)%float = true) l.
Proof.
  unfold format_results.
  destruct (index (ids results) 0) as [ids0|]; [|discriminate].
  rewrite bind_Ret. intros Hl.
  apply (format_loop_meets _ _ _ _ _ Hl). constructor.
Qed.

(** [search] never raises: its handler turns every exception into []. *)
Lemma search_returns self st query top_k threshold :
  exists l, search self st query top_k threshold = Ret l.
Proof. unfold search. apply try_except_returns. Qed.

(** The three ways [search] can end when [db_type] is "chroma". *)
Lemma search_chroma_cases self st query top_k threshold l :
  db_type self = "chroma" ->
  search self st query top_k threshold = Ret l ->
  l = [] \/
  exists c v results,
    collection self = Some c /\
    encode (model self) [query] = Ret v /\
    coll_query c st v top_k = Ret results /\
    format_results results threshold = Ret l.
Proof.
  intros Hdb. unfold search. rewrite Hdb. simpl.
  destruct (encode (model self) [query]) as [v|] eqn:Hv;
    rewrite ?bind_Ret, ?bind_Raise; simpl; [|intros [= <-]; auto].
  unfold the_collection.
  destruct (collection self) as [c|] eqn:Hc;
    rewrite ?bind_Ret, ?bind_Raise; simpl; [|intros [= <-]; auto].
  destruct (coll_query c st v top_k) as [results|] eqn:Hq;
    rewrite ?bind_Ret, ?bind_Raise; simpl; [|intros [= <-]; auto].
  destruct (format_results results threshold) as [l'|] eqn:Hf; simpl;
    [|intros [= <-]; auto].
  intros [= <-]. right. exists c, v, results. auto.
Qed.

(** When [db_type] is not "chroma": the mock result, or [] after a
    failed embedding. *)
Lemma search_mock_cases self st query top_k threshold :
  db_type self <> "chroma" ->
  search self st query top_k threshold =
    match encode (model self) [query] with
    | Ret _ => Ret (_mock_search query top_k)
    | Raise _ => Ret []
    end.
Proof.
  intros Hdb. unfold search.
  destruct (String.eqb_spec (db_type self) "chroma") as [E|_]; [done|].
  destruct (encode (model self) [query]); reflexivity.
Qed.

(** The single-argument call filters at the default threshold 0.7: every
    result it returns has a similarity of at least 0.7. *)
Lemma search_query_only_meets self st query l :
  search_query_only self st query = Ret l ->
  Forall (fun x => (0.7 <=? similarity x)%float = true) l.
Proof.
  unfold search_query_only. intros Hl.
  destruct (String.eqb_spec (db_type self) "chroma") as [Hdb|Hdb].
  - destruct (search_chroma_cases _ _ _ _ _ _ Hdb Hl)
      as [->|(c & v & results & _ & _ & _ & Hf)]; [constructor|].
    exact (format_results_meets _ _ _ Hf).
  - rewrite search_mock_cases in Hl by exact Hdb.
    destruct (encode (model self) [query]); injection Hl as <-.
    + repeat constructor.
    + constructor.
Qed.

End SearchFacts.

(** ** search *)

Section SearchClaims.
Context {S : Type}.
Implicit Types (self : engine S) (st : S) (threshold : float).

Lemma search_chroma_aligned self st query top_k threshold c v entries :
  db_type self = "chroma" ->
  collection self = Some c ->
  encode (model self) [query] = Ret v ->
  coll_query c st v top_k = Ret (response_of entries) ->
  search self st query top_k threshold =
    Ret (to_result <$> List.filter (meets threshold) entries).
Proof.
  intros Hdb Hc Hv Hq. unfold search, the_collection.
  rewrite Hv, Hdb, Hc. simpl. rewrite Hq, bind_Ret.
  rewrite format_results_aligned. reflexivity.
Qed.

(** The handler of [search]: a raising model and a raising store both end
    in the empty list. *)
Lemma search_encode_raises self st query top_k threshold e :
  encode (model self) [query] = Raise e ->
  search self st query top_k threshold = Ret [].
Proof. intros He. unfold search. rewrite He. reflexivity. Qed.

Lemma search_query_raises self st query top_k threshold v c e :
  db_type self = "chroma" ->
  encode (model self) [query] = Ret v ->
  collection self = Some c ->
  coll_query c st v top_k = Raise e ->
  search self st query top_k threshold = Ret [].
Proof.
  intros Hdb Hv Hc Hq. unfold search, the_collection.
  rewrite Hv, Hdb, Hc. simpl. rewrite Hq. reflexivity.
Qed.

Lemma filter_sublist {A} (f : A -> bool) (l : list A) :
  List.filter f l `sublist_of` l.
Proof.
  induction l as [|x l IH]; simpl; [constructor|].
  destruct (f x); [apply sublist_skip | apply sublist_cons]; exact IH.
Qed.

Lemma filter_meets_sublist t1 t2 (entries : list entry) :
  (t1 <=? t2)%float = true ->
  List.filter (meets t2) entries `sublist_of` List.filter (meets t1) entries.
Proof.
  intros Ht. induction entries as [|e entries IH]; simpl; [constructor|].
  destruct (meets t2 e) eqn:H2.
  - rewrite (FloatOrder.leb_trans t1 t2 _ Ht H2 : meets t1 e = true).
    by apply sublist_skip.
  - destruct (meets t1 e); [by apply sublist_cons | exact IH].
Qed.

(** C1 (as amended).  When the embedding model raises, or the model
    answers and the store's query raises, [search] does not pass the
    failure on: its handler logs it and the call returns the empty list,
    the same value it returns when no entry reaches the threshold. *)
Theorem search_swallows_failures self st query top_k threshold :
  (exists e, encode (model self) [query] = Raise e) \/
  (db_type self = "chroma" /\
   exists v c e, encode (model self) [query] = Ret v /\
                 collection self = Some c /\
                 coll_query c st v top_k = Raise e) ->
  search self st query top_k threshold = Ret [].
Proof.
  intros [[e He]|(Hdb & v & c & e & Hv & Hc & Hq)].
  - exact (search_encode_raises _ _ _ _ _ _ He).
  - exact (search_query_raises _ _ _ _ _ _ _ _ Hdb Hv Hc Hq).
Qed.

(** C2 (as amended).  When [db_type] is not "chroma" and the embedding
    call returns, [search] answers the one mock result, with id 'mock_1',
    similarity 0.85 and distance 0.15, whatever the query, [top_k], the
    threshold, the collection attribute and the state of the store. *)
Theorem search_mock_when_not_chroma self st query top_k threshold v :
  db_type self <> "chroma" ->
  encode (model self) [query] = Ret v ->
  exists r,
    id r = "mock_1" /\ similarity r = 0.85%float /\
    distance r = 0.15%float /\
    forall c' st',
      search (Engine (db_type self) (embedding_model self) (model self) c')
        st' query top_k threshold = Ret [r].
Proof.
  intros Hdb Hv. eexists. split; [|split; [|split]]; cycle 3.
  - intros c' st'. rewrite search_mock_cases by exact Hdb. simpl.
    rewrite Hv. reflexivity.
  - reflexivity.
  - reflexivity.
  - reflexivity.
Qed.

(** C7.  With [db_type] "chroma", a model that embeds the query and a
    store that answers with the entries [entries] (columns aligned),
    [search] returns, in the store's order, exactly the entries whose
    similarity [1 - distance] is at least the threshold; each result
    holds the entry's id, content, metadata (the empty mapping when the
    store gave none), that similarity and the distance. *)
Theorem search_filters_by_similarity self st query top_k threshold c v
    entries :
  db_type self = "chroma" ->
  collection self = Some c ->
  encode (model self) [query] = Ret v ->
  coll_query c st v top_k = Ret (response_of entries) ->
  search self st query top_k threshold =
    Ret (to_result <$> List.filter (meets threshold) entries) /\
  (forall e, meets threshold e = (threshold <=? similarity (to_result e))%float) /\
  (forall e, similarity (to_result e) = (1 - distance (to_result e))%float /\
             id (to_result e) = entry_id e /\
             content (to_result e) = entry_document e /\
             result_metadata (to_result e) = default ∅ (entry_metadata e) /\
             distance (to_result e) = entry_distance e) /\
  (to_result <$> List.filter (meets threshold) entries)
    `sublist_of` (to_result <$> entries).
Proof.
  intros Hdb Hc Hv Hq. split; [|split; [|split]].
  - exact (search_chroma_aligned _ _ _ _ _ _ _ _ Hdb Hc Hv Hq).
  - reflexivity.
  - intros e. repeat split.
  - apply fmap_sublist, filter_sublist.
Qed.

(** C9.  For thresholds [t1 <= t2], what [search] returns at [t2] is a
    subsequence of what it returns at [t1] for the same query, [top_k]
    and store state, the store answering, when it answers, with aligned
    columns as its contract says. *)
Theorem search_threshold_monotone self st query top_k t1 t2 :
  (forall c v results,
      collection self = Some c ->
      encode (model self) [query] = Ret v ->
      coll_query c st v top_k = Ret results -> aligned results) ->
  (t1 <=? t2)%float = true ->
  exists l1 l2,
    search self st query top_k t1 = Ret l1 /\
    search self st query top_k t2 = Ret l2 /\
    l2 `sublist_of` l1.
Proof.
  intros Hcontract Ht.
  destruct (String.eqb_spec (db_type self) "chroma") as [Hdb|Hdb].
  - destruct (encode (model self) [query]) as [v|e] eqn:Hv.
    + destruct (collection self) as [c|] eqn:Hc.
      * destruct (coll_query c st v top_k) as [results|e] eqn:Hq.
        -- destruct (Hcontract c v results eq_refl eq_refl Hq)
             as [entries ->].
           eexists _, _. split; [|split].
           ++ exact (search_chroma_aligned _ _ _ _ t1 _ _ _ Hdb Hc Hv Hq).
           ++ exact (search_chroma_aligned _ _ _ _ t2 _ _ _ Hdb Hc Hv Hq).
           ++ apply fmap_sublist, filter_meets_sublist, Ht.
        -- exists [], []. split; [|split]; [| |constructor];
             exact (search_query_raises _ _ _ _ _ _ _ _ Hdb Hv Hc Hq).
      * exists [], []. unfold search, the_collection.
        rewrite Hv, Hdb, Hc. simpl. repeat split. constructor.
    + exists [], []. split; [|split]; [| |constructor];
        exact (search_encode_raises _ _ _ _ _ _ Hv).
  - rewrite !search_mock_cases by exact Hdb.
    destruct (encode (model self) [query]); eexists _, _; eauto.
Qed.

End SearchClaims.

(** ** add_documents and get_stats *)

Section StoreClaims.
Context {S : Type}.
Implicit Types (self : engine S) (st : S).

(** [add_documents] never raises: it returns [True], [False] or [None]. *)
Lemma add_documents_returns self documents st :
  exists flag, (add_documents self documents st).1 = Ret flag.
Proof.
  unfold add_documents, try_except_st.
  destruct (if String.eqb (db_type self) "chroma" then _ else _)
    as [[flag|e] st']; simpl; eauto.
Qed.

(** On the Chroma path with a working model, the outcome is the outcome of
    the one [collection.add] call. *)
Lemma add_documents_chroma self documents st c embeddings :
  db_type self = "chroma" ->
  collection self = Some c ->
  encode (model self) (doc_content <$> documents) = Ret embeddings ->
  add_documents self documents st =
    (Ret (Some (returns
       (coll_add c st (doc_id <$> documents) embeddings
          (doc_content <$> documents) (metadata_column documents)).1)),
     (coll_add c st (doc_id <$> documents) embeddings
        (doc_content <$> documents) (metadata_column documents)).2).
Proof.
  intros Hdb Hc Hv.
  unfold add_documents, try_except_st, the_collection, metadata_column.
  rewrite Hdb. simpl.
  unfold mbind, pyst_bind, lift_py. rewrite Hv, Hc.
  destruct (coll_add c st _ _ _ _) as [[[]|e] st']; reflexivity.
Qed.

Lemma add_documents_not_chroma self documents st :
  db_type self <> "chroma" ->
  add_documents self documents st = (Ret None, st).
Proof.
  intros Hdb. unfold add_documents, try_except_st.
  destruct (String.eqb_spec (db_type self) "chroma"); [done|reflexivity].
Qed.

Lemma add_documents_encode_fails self documents st e :
  db_type self = "chroma" ->
  encode (model self) (doc_content <$> documents) = Raise e ->
  add_documents self documents st = (Ret (Some false), st).
Proof.
  intros Hdb He. unfold add_documents, try_except_st. rewrite Hdb. simpl.
  unfold mbind, pyst_bind, lift_py. rewrite He. reflexivity.
Qed.

(** C5 (as amended).  [add_documents] does not look for repeated ids and
    never raises.  For a batch in which an id occurs twice, with [db_type]
    "chroma" and a model that embeds the contents, the batch goes, ids as
    given, into one [collection.add] call: the result is [True] when that
    call returns and [False] when it raises, and the store is as that call
    left it. *)
Theorem add_documents_forwards_duplicates self documents st c embeddings :
  db_type self = "chroma" ->
  collection self = Some c ->
  encode (model self) (doc_content <$> documents) = Ret embeddings ->
  ~ NoDup (doc_id <$> documents) ->
  (exists flag, (add_documents self documents st).1 = Ret flag) /\
  add_documents self documents st =
    (Ret (Some (returns
       (coll_add c st (doc_id <$> documents) embeddings
          (doc_content <$> documents) (metadata_column documents)).1)),
     (coll_add c st (doc_id <$> documents) embeddings
        (doc_content <$> documents) (metadata_column documents)).2).
Proof.
  intros Hdb Hc Hv _. split.
  - apply add_documents_returns.
  - exact (add_documents_chroma _ _ _ _ _ Hdb Hc Hv).
Qed.

(** C10 (as amended).  [add_documents([])] has no case of its own.  With a
    [db_type] other than "chroma" it leaves the store alone and returns
    [None]; with "chroma" it embeds the empty list and hands empty columns
    to [collection.add], returning [True] when both calls return and
    [False] when either raises, the store being as [collection.add] left
    it. *)
Theorem add_documents_empty self st :
  (db_type self <> "chroma" ->
   add_documents self [] st = (Ret None, st)) /\
  (db_type self = "chroma" ->
   forall e, encode (model self) [] = Raise e ->
   add_documents self [] st = (Ret (Some false), st)) /\
  (db_type self = "chroma" ->
   forall c embeddings,
     collection self = Some c ->
     encode (model self) [] = Ret embeddings ->
     add_documents self [] st =
       (Ret (Some (returns (coll_add c st [] embeddings [] []).1)),
        (coll_add c st [] embeddings [] []).2)).
Proof.
  split; [|split].
  - apply add_documents_not_chroma.
  - intros Hdb e He. exact (add_documents_encode_fails _ [] _ _ Hdb He).
  - intros Hdb c embeddings Hc Hv.
    exact (add_documents_chroma _ [] _ _ _ Hdb Hc Hv).
Qed.

(** C6 (as amended).  [get_stats] never raises.  It returns the record
    with exactly the keys 'total_documents', 'database_type' and
    'embedding_model' when [db_type] is "chroma" and the collection's count
    returns; in every other case (another [db_type], or the count raising)
    it returns the one-key dict {'error': 'Unable to retrieve statistics'}. *)
Theorem get_stats_record_or_error self st :
  (exists c count,
      db_type self = "chroma" /\ collection self = Some c /\
      coll_count c st = Ret count /\
      get_stats self st = Ret (stats_record self count) /\
      dom (stats_record self count) =
        ({[ "total_documents"; "database_type"; "embedding_model" ]}
           : gset string)) \/
  ((db_type self <> "chroma" \/ collection self = None \/
    exists c e, collection self = Some c /\ coll_count c st = Raise e) /\
   get_stats self st = Ret stats_error /\
   dom stats_error = ({[ "error" ]} : gset string)).
Proof.
  unfold get_stats, the_collection.
  destruct (String.eqb_spec (db_type self) "chroma") as [Hdb|Hdb].
  - destruct (collection self) as [c|] eqn:Hc; simpl.
    + destruct (coll_count c st) as [count|e] eqn:Hn; simpl.
      * left. exists c, count. repeat split; done.
      * right. split; [right; right; eauto|]. split; [done|].
        unfold stats_error. apply dom_singleton_L.
    + right. split; [auto|]. split; [done|].
      unfold stats_error. apply dom_singleton_L.
  - right. split; [auto|]. split; [done|].
    unfold stats_error. apply dom_singleton_L.
Qed.

End StoreClaims.

(** ** The drift harness *)

Section HarnessFacts.
Variable search_call : string -> py (list search_result).
Implicit Types (tc : test_case) (r : results).

(** The record and counter a case that ends in the handler leaves. *)
Lemma run_case_raise tc r e :
  search_call (input tc) = Raise e ->
  run_case search_call tc r =
    (Ret tt,
     Results (passed r) (failed r + 1)
       (tests r ++ [TestRecord (name tc) ERROR None
                      (Some (Text (exn_str e)))])).
Proof.
  intros He. unfold run_case, try_except_st, case_try.
  unfold mbind, pyst_bind, lift_py. rewrite He. reflexivity.
Qed.

Lemma run_case_empty tc r :
  search_call (input tc) = Ret [] ->
  run_case search_call tc r =
    (Ret tt,
     if str_contains "no_results_handling" (name tc) then
       Results (passed r + 1) (failed r)
         (tests r ++ [TestRecord (name tc) PASSED None
                        (Some (Text "Correctly handled no results"))])
     else
       Results (passed r) (failed r + 1)
         (tests r ++ [TestRecord (name tc) FAILED None
                        (Some (Text "No search results returned"))])).
Proof.
  intros He. unfold run_case, try_except_st, case_try.
  unfold mbind, pyst_bind, lift_py. rewrite He.
  destruct (str_contains _ _); reflexivity.
Qed.

Lemma run_case_passed tc r best rest :
  search_call (input tc) = Ret (best :: rest) ->
  (default 0.7 (expected_similarity tc) <=? similarity best)%float = true ->
  run_case search_call tc r =
    (Ret tt,
     Results (passed r + 1) (failed r)
       (tests r ++ [TestRecord (name tc) PASSED
                      (Some (similarity best)) None])).
Proof.
  intros He Hle. unfold run_case, try_except_st, case_try.
  unfold mbind, pyst_bind, lift_py. rewrite He, Hle. reflexivity.
Qed.

Lemma run_case_failed tc r best rest t :
  search_call (input tc) = Ret (best :: rest) ->
  expected_similarity tc = Some t ->
  (t <=? similarity best)%float = false ->
  run_case search_call tc r =
    (Ret tt,
     Results (passed r) (failed r + 1)
       (tests r ++ [TestRecord (name tc) FAILED None
                      (Some (SimilarityBelow (similarity best) t))])).
Proof.
  intros He Ht Hle. unfold run_case, try_except_st, case_try.
  unfold mbind, pyst_bind, lift_py. rewrite He, Ht. simpl. rewrite Hle.
  reflexivity.
Qed.

(** The failing branch formats its reason with
    [test_case['expected_similarity']]: without that key it raises after
    the counter was already incremented, and the handler counts the case
    once more. *)
Lemma run_case_failed_without_key tc r best rest :
  search_call (input tc) = Ret (best :: rest) ->
  expected_similarity tc = None ->
  (0.7 <=? similarity best)%float = false ->
  run_case search_call tc r =
    (Ret tt,
     Results (passed r) (failed r + 1 + 1)
       (tests r ++ [TestRecord (name tc) ERROR None
                      (Some (Text "'expected_similarity'"))])).
Proof.
  intros He Ht Hle. unfold run_case, try_except_st, case_try.
  unfold mbind, pyst_bind, lift_py. rewrite He, Ht. simpl. rewrite Hle.
  reflexivity.
Qed.

(** A case never stops the loop, and never lowers the failure counter. *)
Lemma run_case_continues tc r :
  exists r', run_case search_call tc r = (Ret tt, r') /\
             failed r <= failed r'.
Proof.
  destruct (search_call (input tc)) as [[|best rest]|e] eqn:He.
  - rewrite (run_case_empty _ _ He). eexists. split; [reflexivity|].
    destruct (str_contains _ _); simpl; lia.
  - destruct (default 0.7 (expected_similarity tc) <=? similarity best)%float
      eqn:Hle.
    + rewrite (run_case_passed _ _ _ _ He Hle). eexists. split; [done|].
      simpl. lia.
    + destruct (expected_similarity tc) as [t|] eqn:Ht.
      * rewrite (run_case_failed _ _ _ _ _ He Ht Hle). eexists.
        split; [done|]. simpl. lia.
      * rewrite (run_case_failed_without_key _ _ _ _ He Ht Hle). eexists.
        split; [done|]. simpl. lia.
  - rewrite (run_case_raise _ _ _ He). eexists. split; [done|]. simpl. lia.
Qed.

Lemma run_cases_cons tc rest r r' :
  run_case search_call tc r = (Ret tt, r') ->
  run_cases search_call (tc :: rest) r = run_cases search_call rest r'.
Proof.
  intros H. simpl. unfold mbind, pyst_bind. rewrite H. reflexivity.
Qed.

Lemma run_cases_continues test_cases : forall r,
  exists r', run_cases search_call test_cases r = (Ret tt, r') /\
             failed r <= failed r'.
Proof.
  induction test_cases as [|tc rest IH]; intros r.
  - exists r. split; [reflexivity|lia].
  - destruct (run_case_continues tc r) as (r1 & H1 & Hle1).
    rewrite (run_cases_cons _ _ _ _ H1).
    destruct (IH r1) as (r2 & H2 & Hle2).
    exists r2. split; [exact H2|lia].
Qed.

Lemma run_cases_app before after : forall r r',
  run_cases search_call before r = (Ret tt, r') ->
  run_cases search_call (before ++ after) r =
    run_cases search_call after r'.
Proof.
  induction before as [|tc before IH]; intros r r'; simpl.
  - intros [= <-]. reflexivity.
  - unfold mbind, pyst_bind.
    destruct (run_case_continues tc r) as (r1 & -> & _).
    apply IH.
Qed.

End HarnessFacts.

Section HarnessOnEngine.
Context {S : Type}.
Implicit Types (self : engine S) (st : S) (tc : test_case) (r : results).

(** C8.  The verdict on one test case.  With no search result the case is
    PASSED when its name contains "no_results_handling" and FAILED
    otherwise; with results it is PASSED when the similarity of the first
    result is at least the case's expected similarity (0.7 when absent)
    and FAILED otherwise, the reason then holding that similarity and the
    expected one. *)
Theorem run_case_decision_policy self st tc r :
  exists l,
    search_query_only self st (input tc) = Ret l /\
    run_case (search_query_only self st) tc r =
      (Ret tt,
       match l with
       | [] =>
           if str_contains "no_results_handling" (name tc) then
             Results (passed r + 1) (failed r)
               (tests r ++ [TestRecord (name tc) PASSED None
                              (Some (Text "Correctly handled no results"))])
           else
             Results (passed r) (failed r + 1)
               (tests r ++ [TestRecord (name tc) FAILED None
                              (Some (Text "No search results returned"))])
       | best :: _ =>
           if (default 0.7 (expected_similarity tc)
                 <=? similarity best)%float then
             Results (passed r + 1) (failed r)
               (tests r ++ [TestRecord (name tc) PASSED
                              (Some (similarity best)) None])
           else
             Results (passed r) (failed r + 1)
               (tests r ++ [TestRecord (name tc) FAILED None
                              (Some (SimilarityBelow (similarity best)
                                 (default 0.7%float
                                    (expected_similarity tc))))])
       end).
Proof.
  destruct (search_returns self st (input tc) top_k_default threshold_default)
    as [l Hl].
  pose proof (search_query_only_meets self st (input tc) l Hl) as Hmeets.
  exists l. split; [exact Hl|].
  destruct l as [|best rest].
  - exact (run_case_empty _ tc r Hl).
  - destruct (default 0.7 (expected_similarity tc) <=? similarity best)%float
      eqn:Hle.
    + exact (run_case_passed _ tc r best rest Hl Hle).
    + destruct (expected_similarity tc) as [t|] eqn:Ht.
      * exact (run_case_failed _ tc r best rest t Hl Ht Hle).
      * inversion Hmeets as [|? ? Hbest _]; subst. simpl in Hle. congruence.
Qed.

End HarnessOnEngine.

(** ** The constructor's defaults *)

(** Built without arguments, as [run_drift_tests] does, the engine has
    [db_type] "sqlite" and no collection. *)
Lemma init_defaults {S} (env : Env S) (self : engine S) :
  __init__ env None None = Ret self ->
  db_type self = "sqlite" /\ collection self = None.
Proof.
  unfold __init__, _initialize_components. simpl.
  destruct (SentenceTransformer env "all-MiniLM-L6-v2"); simpl;
    [|discriminate].
  intros [= <-]. auto.
Qed.

(** ** Concrete runs *)

Lemma search_swallows_failures_witness :
  (exists e, encode (model Doubles.model_down_engine) ["q"] = Raise e) /\
  search Doubles.model_down_engine Doubles.two_rows "q" 5 0.7%float = Ret [].
Proof.
  assert (H : exists e, encode (model Doubles.model_down_engine) ["q"]
                        = Raise e) by (eexists; reflexivity).
  split; [exact H|].
  apply search_swallows_failures. left. exact H.
Defined.

(** With a model that cannot embed, or a store that cannot be reached,
    [search] raises nothing. *)
Lemma search_failure_counterexample :
  (exists e, encode (model Doubles.model_down_engine) ["q"] = Raise e) /\
  (exists e, coll_query Doubles.down_collection Doubles.two_rows
               [[1%float]] 5 = Raise e) /\
  ~ (exists e, search Doubles.model_down_engine Doubles.two_rows "q" 5
                 0.7%float = Raise e) /\
  ~ (exists e, search Doubles.store_down_engine Doubles.two_rows "q" 5
                 0.7%float = Raise e).
Proof.
  split; [eexists; reflexivity|]. split; [eexists; reflexivity|].
  split; intros [e He]; vm_compute in He; discriminate.
Qed.

Lemma search_mock_when_not_chroma_witness :
  exists r,
    id r = "mock_1" /\ similarity r = 0.85%float /\
    distance r = 0.15%float /\
    forall (c' : option (Collection (list Doubles.row)))
           (st' : list Doubles.row),
      search (Engine "sqlite" "sentence-transformers" Doubles.model_ok c')
        st' "q" 3 0.99%float = Ret [r].
Proof.
  apply (search_mock_when_not_chroma Doubles.sqlite_engine Doubles.two_rows
           "q" 3 0.99%float [[1%float]]).
  - discriminate.
  - reflexivity.
Defined.

(** With [db_type] "sqlite" and a model that cannot embed, [search]
    returns no result at all. *)
Lemma search_mock_counterexample :
  db_type Doubles.sqlite_model_down_engine <> "chroma" /\
  ~ (exists r, search Doubles.sqlite_model_down_engine Doubles.two_rows "q"
                 5 0.7%float = Ret [r]).
Proof.
  split; [discriminate|]. intros [r Hr]. vm_compute in Hr. discriminate.
Qed.

Lemma add_documents_forwards_duplicates_witness :
  ~ NoDup (doc_id <$> Doubles.dup_batch) /\
  add_documents Doubles.chroma_engine Doubles.dup_batch Doubles.two_rows =
    (Ret (Some false), Doubles.two_rows).
Proof.
  assert (Hdup : ~ NoDup (doc_id <$> Doubles.dup_batch)).
  { intros H. apply NoDup_cons in H as [Hnotin _]. apply Hnotin.
    constructor. }
  split; [exact Hdup|].
  apply (add_documents_forwards_duplicates Doubles.chroma_engine
           Doubles.dup_batch Doubles.two_rows Doubles.mem_collection
           [[1%float]; [1%float]] eq_refl eq_refl eq_refl Hdup).
Defined.

(** A batch with the id "dup" twice: [add_documents] returns [False]; it
    raises nothing. *)
Lemma add_documents_duplicate_counterexample :
  ~ NoDup (doc_id <$> Doubles.dup_batch) /\
  ~ (exists e, (add_documents Doubles.chroma_engine Doubles.dup_batch
                  Doubles.two_rows).1 = Raise e).
Proof.
  split.
  - intros H. apply NoDup_cons in H as [Hnotin _]. apply Hnotin.
    constructor.
  - intros [e He]. vm_compute in He. discriminate.
Qed.

(** With a store that cannot be reached [get_stats] returns the error
    dict: no exception, and none of the three keys of the record. *)
Lemma get_stats_counterexample :
  (exists e, coll_count Doubles.down_collection Doubles.two_rows = Raise e) /\
  ~ (exists e, get_stats Doubles.store_down_engine Doubles.two_rows
               = Raise e) /\
  (forall d, get_stats Doubles.store_down_engine Doubles.two_rows = Ret d ->
             d !! "total_documents" = None).
Proof.
  split; [eexists; reflexivity|]. split.
  - intros [e He]. vm_compute in He. discriminate.
  - intros d [= <-]. reflexivity.
Qed.

Lemma search_filters_by_similarity_witness :
  search Doubles.chroma_engine Doubles.two_rows "q" 5 0.7%float =
    Ret [SearchResult "d1" "refund policy: 30 day returns" ∅
           (1 - 0.1)%float 0.1%float].
Proof.
  apply (search_filters_by_similarity Doubles.chroma_engine Doubles.two_rows
           "q" 5 0.7%float Doubles.mem_collection [[1%float]]
           Doubles.two_entries eq_refl eq_refl eq_refl eq_refl).
Defined.

Lemma search_threshold_monotone_witness :
  (0.3 <=? 0.7)%float = true /\
  exists l1 l2,
    search Doubles.chroma_engine Doubles.two_rows "q" 5 0.3%float = Ret l1 /\
    search Doubles.chroma_engine Doubles.two_rows "q" 5 0.7%float = Ret l2 /\
    l2 `sublist_of` l1.
Proof.
  split; [reflexivity|].
  apply (search_threshold_monotone Doubles.chroma_engine Doubles.two_rows
           "q" 5 0.3%float 0.7%float).
  - intros c v results [= <-] _ [= <-].
    exists Doubles.two_entries. reflexivity.
  - reflexivity.
Defined.

(** Without the store's contract the order of thresholds is not kept: on
    an answer with a short documents column, the higher threshold never
    reads the missing document and returns a result, while the lower one
    runs into the missing index and returns []. *)
Example ragged_answer_breaks_monotonicity :
  search Doubles.ragged_engine [] "q" 5 0.3%float = Ret [] /\
  exists x, search Doubles.ragged_engine [] "q" 5 0.8%float = Ret [x].
Proof. split; [reflexivity|]. eexists. reflexivity. Qed.

(** [add_documents([])]: [None] from the default engine, [False] from a
    Chroma engine whose store refuses an empty batch. *)
Lemma add_documents_empty_counterexample :
  (add_documents Doubles.sqlite_engine [] Doubles.two_rows).1
    <> Ret (Some true) /\
  (add_documents Doubles.chroma_engine [] Doubles.two_rows).1
    <> Ret (Some true).
Proof. split; vm_compute; discriminate. Qed.

Lemma add_documents_empty_witness :
  add_documents Doubles.sqlite_engine [] Doubles.two_rows =
    (Ret None, Doubles.two_rows) /\
  add_documents Doubles.chroma_engine [] Doubles.two_rows =
    (Ret (Some false), Doubles.two_rows).
Proof.
  destruct (add_documents_empty Doubles.sqlite_engine Doubles.two_rows)
    as (Hsqlite & _ & _).
  destruct (add_documents_empty Doubles.chroma_engine Doubles.two_rows)
    as (_ & _ & Hchroma).
  split.
  - apply Hsqlite. discriminate.
  - apply (Hchroma eq_refl Doubles.mem_collection [] eq_refl eq_refl).
Defined.

(** ** More on search *)

Section SearchRows.
Context {S : Type}.
Implicit Types (self : engine S) (st : S) (threshold : float).

Lemma index_inv {A} (xs : list A) (i : nat) (x : A) :
  index xs i = Ret x -> xs !! i = Some x.
Proof. unfold index. destruct (xs !! i); [intros [= <-]; done|discriminate]. Qed.

Lemma format_entry_from_row results threshold i x :
  format_entry results threshold i = Ret (Some x) ->
  from_row results threshold i x.
Proof.
  unfold format_entry, from_row.
  destruct (index (distances results) 0) as [ds|] eqn:Hds; [|discriminate].
  rewrite bind_Ret.
  destruct (index ds i) as [d|] eqn:Hd; [|discriminate].
  rewrite bind_Ret.
  destruct (threshold <=? 1 - d)%float eqn:Hle; [|discriminate].
  destruct (index (ids results) 0) as [ids0|] eqn:Hids; [|discriminate].
  rewrite bind_Ret.
  destruct (index ids0 i) as [id_i|] eqn:Hid; [|discriminate].
  rewrite bind_Ret.
  destruct (index (documents results) 0) as [docs|] eqn:Hdocs;
    [|discriminate].
  rewrite bind_Ret.
  destruct (index docs i) as [doc_i|] eqn:Hdoc; [|discriminate].
  rewrite bind_Ret.
  destruct (index (metadatas results) 0) as [ms|] eqn:Hms; [|discriminate].
  rewrite bind_Ret.
  destruct (index ms i) as [m_i|] eqn:Hm; [|discriminate].
  rewrite bind_Ret.
  apply index_inv in Hds, Hd, Hids, Hid, Hdocs, Hdoc, Hms, Hm.
  intros [= <-]. simpl.
  split; [eauto|]. split; [eauto|]. split; [eauto|].
  split; [|done].
  exists ms, m_i. destruct m_i; done.
Qed.

(** The loop adds, for indices of its range taken in order, at most one
    result each. *)
Lemma format_loop_picks results threshold range : forall acc l,
  format_loop results threshold range acc = Ret l ->
  exists picked,
    l = acc ++ picked /\
    (length picked <= length range)%nat /\
    Forall (fun x => exists i, i ∈ range /\ from_row results threshold i x)
      picked.
Proof.
  induction range as [|i range IH]; intros acc l; simpl.
  - intros [= <-]. exists []. rewrite app_nil_r. repeat split; auto.
  - destruct (format_entry results threshold i) as [[x|]|] eqn:Hi;
      rewrite ?bind_Ret, ?bind_Raise; try discriminate.
    + intros Hl. destruct (IH _ _ Hl) as (picked & -> & Hlen & Hall).
      exists (x :: picked). rewrite <- app_assoc. simpl.
      split; [done|]. split; [lia|].
      constructor.
      * exists i. split; [left|]. exact (format_entry_from_row _ _ _ _ Hi).
      * eapply Forall_impl; [exact Hall|].
        intros y (j & Hj & Hy). exists j. split; [by right|done].
    + intros Hl. destruct (IH _ _ Hl) as (picked & -> & Hlen & Hall).
      exists picked. split; [done|]. split; [lia|].
      eapply Forall_impl; [exact Hall|].
      intros y (j & Hj & Hy). exists j. split; [by right|done].
Qed.

(** Once an index of the range cannot be formatted, the loop raises. *)
Lemma format_loop_raises results threshold range i e :
  i ∈ range ->
  format_entry results threshold i = Raise e ->
  forall acc, exists e', format_loop results threshold range acc = Raise e'.
Proof.
  intros Hin Hi. induction range as [|j range IH]; intros acc.
  - by apply elem_of_nil in Hin.
  - simpl. destruct (format_entry results threshold j) as [r|e0] eqn:Hj.
    + rewrite bind_Ret. apply elem_of_cons in Hin as [->|Hin].
      * congruence.
      * apply (IH Hin).
    + rewrite bind_Raise. eauto.
Qed.

(** What [search] does with an answered query. *)
Lemma search_answered self st query top_k threshold c v results :
  db_type self = "chroma" ->
  collection self = Some c ->
  encode (model self) [query] = Ret v ->
  coll_query c st v top_k = Ret results ->
  search self st query top_k threshold =
    match format_results results threshold with
    | Ret l => Ret l
    | Raise _ => Ret []
    end.
Proof.
  intros Hdb Hc Hv Hq. unfold search, the_collection.
  rewrite Hv, Hdb, Hc. simpl. rewrite Hq, bind_Ret.
  destruct (format_results results threshold); reflexivity.
Qed.

Lemma format_results_from_rows results threshold l :
  format_results results threshold = Ret l ->
  Forall (fun x => exists i, from_row results threshold i x) l.
Proof.
  unfold format_results.
  destruct (index (ids results) 0) as [ids0|]; simpl; [|discriminate].
  intros Hloop.
  destruct (format_loop_picks _ _ _ _ _ Hloop) as (picked & -> & _ & Hall).
  simpl. eapply Forall_impl; [exact Hall|].
  intros x (i & _ & Hx). eauto.
Qed.

(** X1.  Whatever the store answers, aligned or not, every result of
    [search] was read off one row of that answer: id, content, metadata
    and distance come from the same index, the similarity is
    [1 - distance], and it reaches the threshold. *)
Theorem search_results_from_rows self st query top_k threshold c v results
    l :
  db_type self = "chroma" ->
  collection self = Some c ->
  encode (model self) [query] = Ret v ->
  coll_query c st v top_k = Ret results ->
  search self st query top_k threshold = Ret l ->
  Forall (fun x => exists i, from_row results threshold i x) l.
Proof.
  intros Hdb Hc Hv Hq.
  rewrite (search_answered _ _ _ _ _ _ _ _ Hdb Hc Hv Hq).
  destruct (format_results results threshold) as [l'|] eqn:Hf;
    intros [= <-]; [|constructor].
  exact (format_results_from_rows _ _ _ Hf).
Qed.

(** X2.  [search] returns at most as many results as the store returned
    ids, whatever [top_k] and the threshold; in particular an answer with
    no ids gives the empty list. *)
Theorem search_length_bounded self st query top_k threshold c v results
    ids0 l :
  db_type self = "chroma" ->
  collection self = Some c ->
  encode (model self) [query] = Ret v ->
  coll_query c st v top_k = Ret results ->
  ids results !! 0%nat = Some ids0 ->
  search self st query top_k threshold = Ret l ->
  (length l <= length ids0)%nat.
Proof.
  intros Hdb Hc Hv Hq Hids.
  rewrite (search_answered _ _ _ _ _ _ _ _ Hdb Hc Hv Hq).
  unfold format_results. rewrite (index_Ret _ _ _ Hids), bind_Ret.
  destruct (format_loop results threshold (seq 0 (length ids0)) [])
    as [l'|] eqn:Hloop; [|intros [= <-]; simpl; lia].
  intros [= <-].
  destruct (format_loop_picks _ _ _ _ _ Hloop) as (picked & -> & Hlen & _).
  simpl. rewrite length_seq in Hlen. exact Hlen.
Qed.

(** X3.  An answer with fewer distances than ids is not returned in part:
    the loop runs into the missing distance, and [search] returns the
    empty list, whatever the threshold. *)
Theorem search_short_distances self st query top_k threshold c v results
    ids0 ds :
  db_type self = "chroma" ->
  collection self = Some c ->
  encode (model self) [query] = Ret v ->
  coll_query c st v top_k = Ret results ->
  ids results !! 0%nat = Some ids0 ->
  distances results !! 0%nat = Some ds ->
  (length ds < length ids0)%nat ->
  search self st query top_k threshold = Ret [].
Proof.
  intros Hdb Hc Hv Hq Hids Hds Hshort.
  rewrite (search_answered _ _ _ _ _ _ _ _ Hdb Hc Hv Hq).
  unfold format_results. rewrite (index_Ret _ _ _ Hids), bind_Ret.
  assert (Hraise : format_entry results threshold (length ds)
                   = Raise IndexError).
  { unfold format_entry. rewrite (index_Ret _ _ _ Hds), bind_Ret.
    unfold index. rewrite (lookup_ge_None_2 ds (length ds)) by lia.
    reflexivity. }
  destruct (format_loop_raises results threshold (seq 0 (length ids0))
              (length ds) IndexError) with (acc := @nil search_result)
    as [e' ->]; [|exact Hraise|reflexivity].
  apply elem_of_seq. lia.
Qed.

End SearchRows.

(** *** NaN *)

Module FloatNaN.

Lemma SFcompare_refl (p : spec_float) :
  p <> S754_nan -> SFcompare p p = Some Eq.
Proof.
  destruct p as [[]|[]| |[] m e]; simpl; try done.
  - rewrite Z.compare_refl, Pos.compare_cont_refl. done.
  - rewrite Z.compare_refl, Pos.compare_cont_refl. done.
Qed.

Lemma is_nan_Prim2SF (t : float) :
  is_nan t = true -> Prim2SF t = S754_nan.
Proof.
  unfold is_nan. rewrite FloatAxioms.eqb_spec. unfold SFeqb.
  intros H. destruct (Prim2SF t) as [s|s| |s m e]; [| |done|].
  all: rewrite SFcompare_refl in H by done; discriminate.
Qed.

Lemma leb_nan_l (t x : float) :
  is_nan t = true -> (t <=? x)%float = false.
Proof.
  intros H. rewrite leb_spec, (is_nan_Prim2SF _ H). reflexivity.
Qed.

Lemma leb_nan_r (t x : float) :
  is_nan x = true -> (t <=? x)%float = false.
Proof.
  intros H. rewrite leb_spec, (is_nan_Prim2SF _ H).
  unfold SFleb, SFcompare. destruct (Prim2SF t); reflexivity.
Qed.

Lemma Prim2SF_nan_is_nan (x : float) :
  Prim2SF x = S754_nan -> is_nan x = true.
Proof.
  intros H. unfold is_nan. rewrite FloatAxioms.eqb_spec, H. reflexivity.
Qed.

Lemma sub_nan_r (a d : float) :
  is_nan d = true -> is_nan (a - d)%float = true.
Proof.
  intros H. apply Prim2SF_nan_is_nan.
  rewrite sub_spec, (is_nan_Prim2SF _ H).
  unfold SF64sub, SFsub. destruct (Prim2SF a); reflexivity.
Qed.

(** A similarity that passes any threshold comes from a distance that is
    a number. *)
Lemma meets_not_nan (t d : float) :
  (t <=? 1 - d)%float = true ->
  is_nan d = false /\ is_nan (1 - d)%float = false /\ is_nan t = false.
Proof.
  intros H.
  destruct (is_nan t) eqn:Ht; [rewrite (leb_nan_l _ _ Ht) in H; done|].
  destruct (is_nan (1 - d)%float) eqn:Hs;
    [rewrite (leb_nan_r _ _ Hs) in H; done|].
  destruct (is_nan d) eqn:Hd; [|done].
  rewrite (sub_nan_r 1 d Hd) in Hs. done.
Qed.

End FloatNaN.

Section SearchEdges.
Context {S : Type}.
Implicit Types (self : engine S) (st : S) (threshold : float).

Lemma Forall_sublist {A} (P : A -> Prop) (l1 l2 : list A) :
  l1 `sublist_of` l2 -> Forall P l2 -> Forall P l1.
Proof.
  induction 1 as [|x l1 l2 _ IH|x l1 l2 _ IH]; intros H.
  - constructor.
  - apply Forall_cons in H as [Hx H]. constructor; auto.
  - apply Forall_cons in H as [_ H]. auto.
Qed.

Lemma StronglySorted_sublist {A} (R : A -> A -> Prop) (l1 l2 : list A) :
  l1 `sublist_of` l2 -> StronglySorted R l2 -> StronglySorted R l1.
Proof.
  induction 1 as [|x l1 l2 Hsub IH|x l1 l2 Hsub IH]; intros H.
  - constructor.
  - apply StronglySorted_inv in H as [Hs Hx]. constructor; [auto|].
    exact (Forall_sublist _ _ _ Hsub Hx).
  - apply StronglySorted_inv in H as [Hs _]. auto.
Qed.

(** X4.  NaN never gets through the comparison [similarity >= threshold]:
    with a NaN threshold a Chroma-backed [search] returns the empty list,
    and with any threshold no returned result has a NaN distance or
    similarity. *)
Theorem search_nan self st query top_k threshold l :
  db_type self = "chroma" ->
  search self st query top_k threshold = Ret l ->
  (is_nan threshold = true -> l = []) /\
  Forall (fun x => is_nan (distance x) = false /\
                   is_nan (similarity x) = false) l.
Proof.
  intros Hdb Hl.
  assert (Hrows : Forall (fun x => similarity x = (1 - distance x)%float /\
                    (threshold <=? similarity x)%float = true) l).
  { destruct (search_chroma_cases _ _ _ _ _ _ Hdb Hl)
      as [->|(c & v & results & _ & _ & _ & Hf)]; [constructor|].
    eapply Forall_impl; [exact (format_results_from_rows _ _ _ Hf)|].
    intros x (i & _ & _ & _ & _ & Hsim & Hle). done. }
  split.
  - intros Hnan. destruct l as [|x l]; [done|].
    apply Forall_cons in Hrows as [[_ Hle] _].
    rewrite (FloatNaN.leb_nan_l _ _ Hnan) in Hle. discriminate.
  - eapply Forall_impl; [exact Hrows|].
    intros x [Hsim Hle]. rewrite Hsim in Hle |- *.
    destruct (FloatNaN.meets_not_nan _ _ Hle) as (Hd & Hs & _). done.
Qed.

(** X5.  [search] keeps the store's ranking: when the store's entries come
    in ascending distance, so do the results. *)
Theorem search_keeps_distance_order self st query top_k threshold c v
    entries l :
  db_type self = "chroma" ->
  collection self = Some c ->
  encode (model self) [query] = Ret v ->
  coll_query c st v top_k = Ret (response_of entries) ->
  StronglySorted
    (fun e1 e2 => float_le (entry_distance e1) (entry_distance e2))
    entries ->
  search self st query top_k threshold = Ret l ->
  StronglySorted (fun x y => float_le (distance x) (distance y)) l.
Proof.
  intros Hdb Hc Hv Hq Hsorted.
  rewrite (search_chroma_aligned _ _ _ _ threshold _ _ _ Hdb Hc Hv Hq).
  intros [= <-].
  pose proof (StronglySorted_sublist _ _ _
                (filter_sublist (meets threshold) entries) Hsorted) as Hf.
  induction Hf as [|e es _ IH Hall]; simpl; constructor; [exact IH|].
  apply Forall_fmap. exact Hall.
Qed.

End SearchEdges.

(** ** The constructor *)

Section Constructor.
Context {S : Type}.
Implicit Types (env : Env S) (self : engine S) (st : S).

(** The constructor, step by step. *)
Lemma init_unfold env db em :
  __init__ env db em =
    match SentenceTransformer env
            (model_name_for (default "sentence-transformers" em)) with
    | Raise e => Raise e
    | Ret m =>
        if String.eqb (default "sqlite" db) "chroma" then
          match get_or_create_collection env "CustomerDocs_documents" with
          | Raise e => Raise e
          | Ret c =>
              Ret (Engine (default "sqlite" db)
                     (default "sentence-transformers" em) m (Some c))
          end
        else
          Ret (Engine (default "sqlite" db)
                 (default "sentence-transformers" em) m None)
    end.
Proof.
  unfold __init__, _initialize_components, model_name_for, try_except.
  generalize (default "sqlite" db) as d.
  generalize (default "sentence-transformers" em) as n.
  intros n d.
  destruct (String.eqb_spec n "sentence-transformers") as [->|_]; simpl.
  - destruct (SentenceTransformer env "all-MiniLM-L6-v2") as [m|e]; simpl;
      [|reflexivity].
    destruct (String.eqb d "chroma"); simpl; [|reflexivity].
    destruct (get_or_create_collection env _); reflexivity.
  - destruct (String.eqb n "bge-small-en").
    + destruct (SentenceTransformer env "BAAI/bge-small-en-v1.5") as [m|e];
        simpl; [|reflexivity].
      destruct (String.eqb d "chroma"); simpl; [|reflexivity].
      destruct (get_or_create_collection env _); reflexivity.
    + destruct (SentenceTransformer env "all-MiniLM-L6-v2") as [m|e]; simpl;
        [|reflexivity].
      destruct (String.eqb d "chroma"); simpl; [|reflexivity].
      destruct (get_or_create_collection env _); reflexivity.
Qed.

(** X6.  A constructed engine keeps the arguments it was given (or their
    defaults "sqlite" and "sentence-transformers"), and it holds a
    collection exactly when its [db_type] is "chroma": then it is the one
    opened under the name "CustomerDocs_documents". *)
Theorem init_attributes env db em self :
  __init__ env db em = Ret self ->
  db_type self = default "sqlite" db /\
  embedding_model self = default "sentence-transformers" em /\
  (db_type self = "chroma" ->
   exists c, collection self = Some c /\
             get_or_create_collection env "CustomerDocs_documents" = Ret c) /\
  (db_type self <> "chroma" -> collection self = None).
Proof.
  rewrite init_unfold.
  destruct (SentenceTransformer env _) as [m|e]; [|discriminate].
  destruct (String.eqb_spec (default "sqlite" db) "chroma") as [Hdb|Hdb].
  - destruct (get_or_create_collection env _) as [c|] eqn:Hc;
      [|discriminate].
    intros [= <-]. simpl. split; [done|]. split; [done|].
    split; [eauto|congruence].
  - intros [= <-]. simpl. split; [done|]. split; [done|].
    split; [congruence|done].
Qed.

(** X7.  A model name the constructor does not know is not refused: any
    name but "bge-small-en" loads 'all-MiniLM-L6-v2', while the engine
    keeps the requested name, and that name is what [get_stats] reports
    as 'embedding_model'. *)
Theorem init_model_fallback env db em self :
  em <> "bge-small-en" ->
  __init__ env db (Some em) = Ret self ->
  SentenceTransformer env "all-MiniLM-L6-v2" = Ret (model self) /\
  embedding_model self = em /\
  forall st d,
    get_stats self st = Ret d ->
    is_Some (d !! "total_documents") ->
    d !! "embedding_model" = Some (VStr em).
Proof.
  intros Hem. rewrite init_unfold. unfold model_name_for. simpl.
  destruct (String.eqb_spec em "bge-small-en") as [E|_]; [done|].
  destruct (SentenceTransformer env "all-MiniLM-L6-v2") as [m|e];
    [|discriminate].
  intros Hself.
  assert (Hm : model self = m /\ embedding_model self = em).
  { destruct (String.eqb (default "sqlite" db) "chroma");
      [destruct (get_or_create_collection env _); [|discriminate]|];
      injection Hself as <-; done. }
  destruct Hm as [-> Hname]. split; [done|]. split; [done|].
  intros st d. unfold get_stats, the_collection.
  destruct (String.eqb (db_type self) "chroma"); simpl.
  - destruct (collection self) as [c|]; simpl.
    + destruct (coll_count c st); simpl; intros [= <-].
      * intros _. unfold stats_record. rewrite Hname. done.
      * intros [? H]. done.
    + intros [= <-] [? H]. done.
  - intros [= <-] [? H]. done.
Qed.

(** X8.  The constructor raises exactly when loading the model raises, or
    the model loads, [db_type] is "chroma" and opening the collection
    raises; the exception is the collaborator's, unchanged.  With another
    [db_type] the persistent client is never opened. *)
Theorem init_raises_iff env db em e :
  __init__ env db em = Raise e <->
  SentenceTransformer env
    (model_name_for (default "sentence-transformers" em)) = Raise e \/
  (exists m,
      SentenceTransformer env
        (model_name_for (default "sentence-transformers" em)) = Ret m /\
      default "sqlite" db = "chroma" /\
      get_or_create_collection env "CustomerDocs_documents" = Raise e).
Proof.
  rewrite init_unfold.
  destruct (SentenceTransformer env _) as [m|e0].
  - destruct (String.eqb_spec (default "sqlite" db) "chroma") as [Hdb|Hdb].
    + destruct (get_or_create_collection env _) as [c|e1] eqn:Hc.
      * split; [discriminate|]. intros [H|(? & _ & _ & H)]; discriminate.
      * split.
        -- intros [= <-]. right. eauto.
        -- intros [H|(? & _ & _ & H)]; [discriminate|]. congruence.
    + split; [discriminate|].
      intros [H|(? & _ & H & _)]; [discriminate|done].
  - split.
    + intros [= <-]. auto.
    + intros [H|(? & H & _)]; [congruence|discriminate].
Qed.

End Constructor.

(** ** More on get_stats and add_documents *)

Section StoreExtras.
Context {S : Type}.
Implicit Types (env : Env S) (self : engine S) (st : S).

(** X9.  A dict of [get_stats] that has 'total_documents' is the whole
    record: the count is the collection's, 'database_type' is "chroma"
    (no other [db_type] builds the record), 'embedding_model' is the
    engine's, and there is no 'error' key. *)
Theorem get_stats_fields self st d :
  get_stats self st = Ret d ->
  is_Some (d !! "total_documents") ->
  exists c count,
    collection self = Some c /\ coll_count c st = Ret count /\
    d !! "total_documents" = Some (VInt count) /\
    d !! "database_type" = Some (VStr "chroma") /\
    d !! "embedding_model" = Some (VStr (embedding_model self)) /\
    d !! "error" = None.
Proof.
  unfold get_stats, the_collection.
  destruct (String.eqb_spec (db_type self) "chroma") as [Hdb|Hdb]; simpl.
  - destruct (collection self) as [c|]; simpl.
    + destruct (coll_count c st) as [count|] eqn:Hn; simpl; intros [= <-].
      * intros _. exists c, count. unfold stats_record. rewrite Hdb. done.
      * intros [? H]. done.
    + intros [= <-] [? H]. done.
  - intros [= <-] [? H]. done.
Qed.

(** X10.  [add_documents] returns [True] exactly when [db_type] is
    "chroma", the model embedded the contents and the one
    [collection.add] call returned; the store is then the one that call
    left. *)
Theorem add_documents_true_iff self documents st st' :
  add_documents self documents st = (Ret (Some true), st') <->
  db_type self = "chroma" /\
  exists c embeddings,
    collection self = Some c /\
    encode (model self) (doc_content <$> documents) = Ret embeddings /\
    add_call c st documents embeddings = (Ret tt, st').
Proof.
  unfold add_call. split.
  - destruct (String.eqb_spec (db_type self) "chroma") as [Hdb|Hdb].
    + destruct (encode (model self) (doc_content <$> documents))
        as [embeddings|e] eqn:Hv.
      * destruct (collection self) as [c|] eqn:Hc.
        -- rewrite (add_documents_chroma _ _ _ _ _ Hdb Hc Hv).
           destruct (coll_add c st _ _ _ _) as [[[]|e] st1] eqn:Hadd;
             simpl; intros [= <-]. eauto 10.
        -- unfold add_documents, try_except_st, the_collection.
           rewrite Hdb. simpl. unfold mbind, pyst_bind, lift_py.
           rewrite Hv, Hc. discriminate.
      * rewrite (add_documents_encode_fails _ _ _ _ Hdb Hv). discriminate.
    + rewrite (add_documents_not_chroma _ _ _ Hdb). discriminate.
  - intros (Hdb & c & embeddings & Hc & Hv & Hadd).
    rewrite (add_documents_chroma _ _ _ _ _ Hdb Hc Hv), Hadd. reflexivity.
Qed.

(** X11.  The store changes only through the one [collection.add] call:
    if the store after [add_documents] differs from the store before,
    then [db_type] is "chroma", the contents were embedded, and the new
    store is the one [collection.add] left, whether it returned or
    raised. *)
Theorem add_documents_writes_only_through_add self documents st :
  (add_documents self documents st).2 <> st ->
  db_type self = "chroma" /\
  exists c embeddings,
    collection self = Some c /\
    encode (model self) (doc_content <$> documents) = Ret embeddings /\
    (add_documents self documents st).2 =
      (add_call c st documents embeddings).2.
Proof.
  unfold add_call.
  destruct (String.eqb_spec (db_type self) "chroma") as [Hdb|Hdb].
  - destruct (encode (model self) (doc_content <$> documents))
      as [embeddings|e] eqn:Hv.
    + destruct (collection self) as [c|] eqn:Hc.
      * rewrite (add_documents_chroma _ _ _ _ _ Hdb Hc Hv). simpl.
        intros _. eauto 10.
      * unfold add_documents, try_except_st, the_collection.
        rewrite Hdb. simpl. unfold mbind, pyst_bind, lift_py.
        rewrite Hv, Hc. simpl. done.
    + rewrite (add_documents_encode_fails _ _ _ _ Hdb Hv). simpl. done.
  - rewrite (add_documents_not_chroma _ _ _ Hdb). simpl. done.
Qed.

(** X12.  An engine built with the constructor's defaults never uses the
    vector store: [add_documents] returns [None] and leaves the store as
    it is, [get_stats] returns the error dict, and [search] returns the
    mock result (or [] when the model cannot embed the query), whatever
    the store holds. *)
Theorem default_engine_ignores_store env self :
  __init__ env None None = Ret self ->
  forall st,
    (forall documents,
        add_documents self documents st = (Ret None, st)) /\
    get_stats self st = Ret stats_error /\
    (forall query top_k threshold,
        search self st query top_k threshold =
          match encode (model self) [query] with
          | Ret _ => Ret (_mock_search query top_k)
          | Raise _ => Ret []
          end).
Proof.
  intros Hself st. destruct (init_defaults _ _ Hself) as [Hdb Hc].
  assert (Hne : db_type self <> "chroma") by (rewrite Hdb; discriminate).
  split; [|split].
  - intros documents. exact (add_documents_not_chroma _ _ _ Hne).
  - unfold get_stats.
    destruct (String.eqb_spec (db_type self) "chroma"); [done|reflexivity].
  - intros query top_k threshold. exact (search_mock_cases _ _ _ _ _ Hne).
Qed.

End StoreExtras.

(** ** More on the drift harness *)

Section Substring.

Lemma append_cons (a : Ascii.ascii) (p post : string) :
  (String a p +:+ post)%string = String a (p +:+ post).
Proof. reflexivity. Qed.

Lemma prefix_spec (p s : string) :
  String.prefix p s = true <-> exists post, s = (p +:+ post)%string.
Proof.
  revert s. induction p as [|a p IH]; intros s; simpl.
  - split; [intros _; exists s; reflexivity|].
    intros _. destruct s; reflexivity.
  - destruct s as [|b s]; simpl.
    + split; [discriminate|]. intros [post H].
      rewrite append_cons in H. discriminate.
    + destruct (Ascii.ascii_dec a b) as [->|Hab].
      * rewrite IH. split; intros [post H]; exists post;
          rewrite append_cons in *; congruence.
      * split; [discriminate|]. intros [post H].
        rewrite append_cons in H. congruence.
Qed.

(** X13.  A case counts as a no-results case exactly when its name has
    the marker as a run of consecutive characters: [needle in hay] holds
    iff [hay] is some text, then [needle], then some text. *)
Theorem str_contains_spec (needle hay : string) :
  str_contains needle hay = true <->
  exists pre post, hay = (pre +:+ needle +:+ post)%string.
Proof.
  induction hay as [|a hay IH].
  - change (str_contains needle "")
      with (String.prefix needle "" || false).
    rewrite orb_false_r, prefix_spec. split.
    + intros [post H]. exists "", post. exact H.
    + intros (pre & post & H). destruct pre as [|b pre].
      * exists post. exact H.
      * rewrite append_cons in H. discriminate.
  - change (str_contains needle (String a hay))
      with (String.prefix needle (String a hay) || str_contains needle hay).
    rewrite orb_true_iff, prefix_spec, IH. split.
    + intros [[post H]|(pre & post & H)].
      * exists "", post. exact H.
      * exists (String a pre), post. rewrite append_cons. congruence.
    + intros ([|b pre] & post & H).
      * left. exists post. exact H.
      * right. exists pre, post. rewrite append_cons in H. congruence.
Qed.

End Substring.

Section SuiteInvariants.
Variable search_call : string -> py (list search_result).
Implicit Types (tc : test_case) (r : results).

Lemma count_status_app s (l1 l2 : list test_record) :
  count_status s (l1 ++ l2) = count_status s l1 + count_status s l2.
Proof.
  unfold count_status. rewrite List.filter_app, length_app. lia.
Qed.

Lemma count_status_nonneg s (l : list test_record) : 0 <= count_status s l.
Proof. unfold count_status. lia. Qed.

(** One case: one record, named after the case; a PASSED record adds one
    to [passed] and nothing to [failed], any other adds one or two to
    [failed] and nothing to [passed]. *)
Lemma run_case_shape tc r :
  exists r' rec,
    run_case search_call tc r = (Ret tt, r') /\
    tests r' = tests r ++ [rec] /\
    test_name rec = name tc /\
    ((test_status rec = PASSED /\
      passed r' = passed r + 1 /\ failed r' = failed r) \/
     (test_status rec <> PASSED /\
      passed r' = passed r /\
      failed r + 1 <= failed r' <= failed r + 2)).
Proof.
  destruct (search_call (input tc)) as [[|best rest]|e] eqn:He.
  - rewrite (run_case_empty _ _ _ He).
    destruct (str_contains _ _); eexists _, _;
      (split; [reflexivity|]); simpl;
      (split; [reflexivity|]); (split; [reflexivity|]);
      [left|right]; simpl; repeat split; try done; lia.
  - destruct (default 0.7 (expected_similarity tc) <=? similarity best)%float
      eqn:Hle.
    + rewrite (run_case_passed _ _ _ _ _ He Hle). eexists _, _.
      split; [reflexivity|]. simpl. split; [reflexivity|].
      split; [reflexivity|]. left. done.
    + destruct (expected_similarity tc) as [t|] eqn:Ht.
      * rewrite (run_case_failed _ _ _ _ _ _ He Ht Hle). eexists _, _.
        split; [reflexivity|]. simpl. split; [reflexivity|].
        split; [reflexivity|]. right. simpl. repeat split; try done; lia.
      * rewrite (run_case_failed_without_key _ _ _ _ _ He Ht Hle).
        eexists _, _.
        split; [reflexivity|]. simpl. split; [reflexivity|].
        split; [reflexivity|]. right. simpl. repeat split; try done; lia.
  - rewrite (run_case_raise _ _ _ _ He). eexists _, _.
    split; [reflexivity|]. simpl. split; [reflexivity|].
    split; [reflexivity|]. right. simpl. repeat split; try done; lia.
Qed.

(** The loop, from any state of the report. *)
Lemma run_cases_shape test_cases : forall r,
  exists r' records,
    run_cases search_call test_cases r = (Ret tt, r') /\
    tests r' = tests r ++ records /\
    test_name <$> records = name <$> test_cases /\
    passed r' = passed r + count_status PASSED records /\
    failed r + (Z.of_nat (length records) - count_status PASSED records)
      <= failed r' /\
    failed r' <=
      failed r + 2 * (Z.of_nat (length records)
                      - count_status PASSED records).
Proof.
  induction test_cases as [|tc rest IH]; intros r.
  - exists r, []. simpl. rewrite app_nil_r.
    unfold count_status. simpl. repeat split; lia.
  - destruct (run_case_shape tc r)
      as (r1 & rec & H1 & Ht1 & Hn1 & Hcount).
    rewrite (run_cases_cons _ _ _ _ _ H1).
    destruct (IH r1) as (r2 & records & H2 & Ht2 & Hn2 & Hp2 & Hlo & Hhi).
    exists r2, (rec :: records).
    split; [exact H2|].
    split; [rewrite Ht2, Ht1, <- app_assoc; reflexivity|].
    split; [rewrite !fmap_cons; congruence|].
    change (rec :: records) with ([rec] ++ records).
    rewrite count_status_app, length_app. simpl length.
    assert (Hrec : (test_status rec = PASSED /\
                    count_status PASSED [rec] = 1) \/
                   (test_status rec <> PASSED /\
                    count_status PASSED [rec] = 0)).
    { unfold count_status. simpl. case_bool_decide; simpl; [left|right];
        done. }
    destruct Hcount as [(Hs & Hp & Hf)|(Hs & Hp & Hf)],
             Hrec as [(Hs' & Hc)|(Hs' & Hc)]; try done;
      rewrite Hc; repeat split; lia.
Qed.

(** X14.  The report follows the suite: one record per test case, in the
    order of the cases and under the case's name, whatever the searches
    return or raise. *)
Theorem suite_records_follow_cases test_cases :
  test_name <$> tests (suite_results search_call test_cases) =
  name <$> test_cases.
Proof.
  unfold suite_results.
  destruct (run_cases_shape test_cases (Results 0 0 []))
    as (r' & records & -> & Ht & Hn & _). simpl in *.
  rewrite Ht. exact Hn.
Qed.

(** X15.  The counters against the records: [passed] is the number of
    PASSED records; every record that is not PASSED is counted in
    [failed] at least once and at most twice; so the verdict
    [failed == 0] holds exactly when every record is PASSED. *)
Theorem suite_counters test_cases :
  let r := suite_results search_call test_cases in
  passed r = count_status PASSED (tests r) /\
  count_status FAILED (tests r) + count_status ERROR (tests r)
    <= failed r
    <= 2 * (count_status FAILED (tests r) + count_status ERROR (tests r)) /\
  (verdict r = true <->
   Forall (fun t => test_status t = PASSED) (tests r)).
Proof.
  unfold suite_results.
  destruct (run_cases_shape test_cases (Results 0 0 []))
    as (r' & records & -> & Ht & _ & Hp & Hlo & Hhi). simpl in *.
  rewrite Ht.
  assert (Hsplit : Z.of_nat (length records) =
            count_status PASSED records + count_status FAILED records
            + count_status ERROR records).
  { clear. induction records as [|t records IH]; [done|].
    change (t :: records) with ([t] ++ records).
    rewrite !count_status_app, length_app.
    unfold count_status in *. simpl.
    destruct (test_status t); repeat case_bool_decide; simpl; try done;
      lia. }
  assert (Hall : count_status FAILED records + count_status ERROR records
                 = 0 <->
                 Forall (fun t => test_status t = PASSED) records).
  { clear. induction records as [|t records IH]; [done|].
    change (t :: records) with ([t] ++ records).
    rewrite !count_status_app, Forall_app, Forall_singleton.
    pose proof (count_status_nonneg FAILED records).
    pose proof (count_status_nonneg ERROR records).
    unfold count_status in *. simpl.
    destruct (test_status t); repeat case_bool_decide; simpl; try done.
    - rewrite <- IH. split; [intros; split; [done|lia]|intros [_ ?]; lia].
    - split; [lia|intros [? _]; done].
    - split; [lia|intros [? _]; done]. }
  split; [lia|]. split; [lia|].
  unfold verdict. rewrite Z.eqb_eq, <- Hall.
  pose proof (count_status_nonneg FAILED records).
  pose proof (count_status_nonneg ERROR records).
  simpl. lia.
Qed.

End SuiteInvariants.

Section SuiteOnEngine.
Context {S : Type}.
Implicit Types (env : Env S) (self : engine S) (st : S)
  (tc : test_case) (r : results).

(** One case against an engine: the record is PASSED or FAILED, never
    ERROR, and exactly one counter grows by one. *)
Lemma run_case_on_engine self st tc r :
  exists r' rec,
    run_case (search_query_only self st) tc r = (Ret tt, r') /\
    tests r' = tests r ++ [rec] /\
    ((test_status rec = PASSED /\
      passed r' = passed r + 1 /\ failed r' = failed r) \/
     (test_status rec = FAILED /\
      passed r' = passed r /\ failed r' = failed r + 1)).
Proof.
  destruct (search_returns self st (input tc) top_k_default threshold_default)
    as [l Hl].
  pose proof (search_query_only_meets self st (input tc) l Hl) as Hmeets.
  destruct l as [|best rest].
  - rewrite (run_case_empty _ tc r Hl).
    destruct (str_contains _ _); eexists _, _;
      (split; [reflexivity|]); simpl; (split; [reflexivity|]);
      [left|right]; done.
  - destruct (default 0.7 (expected_similarity tc) <=? similarity best)%float
      eqn:Hle.
    + rewrite (run_case_passed _ tc r best rest Hl Hle). eexists _, _.
      split; [reflexivity|]. simpl. split; [reflexivity|]. left. done.
    + destruct (expected_similarity tc) as [t|] eqn:Ht.
      * rewrite (run_case_failed _ tc r best rest t Hl Ht Hle).
        eexists _, _.
        split; [reflexivity|]. simpl. split; [reflexivity|]. right. done.
      * inversion Hmeets as [|? ? Hbest _]; subst. simpl in Hle. congruence.
Qed.

Lemma run_cases_on_engine self st test_cases : forall r,
  exists r' records,
    run_cases (search_query_only self st) test_cases r = (Ret tt, r') /\
    tests r' = tests r ++ records /\
    length records = length test_cases /\
    count_status ERROR records = 0 /\
    passed r' = passed r + count_status PASSED records /\
    failed r' = failed r + count_status FAILED records.
Proof.
  induction test_cases as [|tc rest IH]; intros r.
  - exists r, []. simpl. rewrite app_nil_r.
    unfold count_status. simpl. repeat split; lia.
  - destruct (run_case_on_engine self st tc r)
      as (r1 & rec & H1 & Ht1 & Hcount).
    rewrite (run_cases_cons _ _ _ _ _ H1).
    destruct (IH r1)
      as (r2 & records & H2 & Ht2 & Hlen & Herr & Hp2 & Hf2).
    exists r2, (rec :: records).
    split; [exact H2|].
    split; [rewrite Ht2, Ht1, <- app_assoc; reflexivity|].
    split; [simpl; lia|].
    change (rec :: records) with ([rec] ++ records).
    rewrite !count_status_app.
    destruct Hcount as [(Hs & Hp & Hf)|(Hs & Hp & Hf)];
      unfold count_status in *; simpl; rewrite Hs; simpl;
      repeat split; lia.
Qed.

(** X16.  Against a [CustomerDocsSemanticSearch] engine, of any
    [db_type], no case is ever recorded as ERROR: every case is PASSED or
    FAILED and counted once, so [passed + failed], the total the harness
    prints, is the number of test cases. *)
Theorem suite_on_engine_counts self st test_cases :
  let r := suite_results (search_query_only self st) test_cases in
  count_status ERROR (tests r) = 0 /\
  passed r = count_status PASSED (tests r) /\
  failed r = count_status FAILED (tests r) /\
  passed r + failed r = Z.of_nat (length test_cases).
Proof.
  unfold suite_results.
  destruct (run_cases_on_engine self st test_cases (Results 0 0 []))
    as (r' & records & -> & Ht & Hlen & Herr & Hp & Hf). simpl in *.
  rewrite Ht. split; [exact Herr|]. split; [lia|]. split; [lia|].
  rewrite Hp, Hf, <- Hlen. clear -Herr.
  induction records as [|t records IH]; [done|].
  change (t :: records) with ([t] ++ records) in *.
  rewrite !count_status_app in *. rewrite length_app.
  pose proof (count_status_nonneg ERROR records).
  unfold count_status in *. simpl in *.
  destruct (test_status t); repeat case_bool_decide; simpl in *; try done;
    lia.
Qed.

(** One case against the engine [run_drift_tests] builds. *)
Lemma run_case_default_engine self st tc r :
  db_type self <> "chroma" ->
  exists r',
    run_case (search_query_only self st) tc r = (Ret tt, r') /\
    failed r' =
      failed r + (if default_case_passes (model self) tc then 0 else 1).
Proof.
  intros Hdb. unfold default_case_passes.
  pose proof (search_mock_cases self st (input tc) top_k_default
                threshold_default Hdb) as Hsearch.
  fold (search_query_only self st (input tc)) in Hsearch.
  destruct (encode (model self) [input tc]) as [v|e].
  - unfold _mock_search in Hsearch.
    destruct (default 0.7 (expected_similarity tc) <=? 0.85)%float eqn:Hle.
    + rewrite (run_case_passed _ tc r _ _ Hsearch Hle). eexists.
      split; [reflexivity|]. simpl. lia.
    + destruct (expected_similarity tc) as [t|] eqn:Ht.
      * rewrite (run_case_failed _ tc r _ _ t Hsearch Ht Hle). eexists.
        split; [reflexivity|]. simpl. lia.
      * simpl in Hle. vm_compute in Hle. discriminate.
  - rewrite (run_case_empty _ tc r Hsearch).
    destruct (str_contains _ _); eexists; (split; [reflexivity|]); simpl;
      lia.
Qed.

Lemma run_cases_default_engine self st test_cases :
  db_type self <> "chroma" ->
  forall r, exists r',
    run_cases (search_query_only self st) test_cases r = (Ret tt, r') /\
    failed r' =
      failed r +
      Z.of_nat (length (List.filter
        (fun tc => negb (default_case_passes (model self) tc))
        test_cases)).
Proof.
  intros Hdb. induction test_cases as [|tc rest IH]; intros r.
  - exists r. simpl. split; [reflexivity|lia].
  - destruct (run_case_default_engine self st tc r Hdb) as (r1 & H1 & Hf1).
    rewrite (run_cases_cons _ _ _ _ _ H1).
    destruct (IH r1) as (r2 & H2 & Hf2).
    exists r2. split; [exact H2|]. rewrite Hf2, Hf1. simpl.
    destruct (default_case_passes (model self) tc); simpl; lia.
Qed.

Lemma no_failing_case {A} (p : A -> bool) (l : list A) :
  (Z.of_nat (length (List.filter (fun x => negb (p x)) l)) =? 0)
  = forallb p l.
Proof.
  induction l as [|x l IH]; [reflexivity|]. simpl.
  destruct (p x); simpl; [exact IH|reflexivity].
Qed.

(** On a suite already loaded and well formed, only the constructor can
    make the harness raise. *)
Lemma run_drift_tests_loaded_raises_iff env st test_cases e :
  run_drift_tests env st test_cases = Raise e <->
  SentenceTransformer env "all-MiniLM-L6-v2" = Raise e.
Proof.
  unfold run_drift_tests. rewrite init_unfold. simpl.
  change (model_name_for "sentence-transformers") with "all-MiniLM-L6-v2".
  destruct (SentenceTransformer env "all-MiniLM-L6-v2") as [m|e0]; simpl.
  - split; discriminate.
  - split; intros [= <-]; reflexivity.
Qed.

(** X18.  What [run_drift_tests] returns when the model loads: [True]
    exactly when every case passes [default_case_passes], which looks at
    the model and the case alone.  The store, the collection and the
    query text's meaning play no part: a case whose input the model
    embeds passes when its expected similarity (0.7 when absent) is at
    most 0.85, the mock result's similarity. *)
Theorem run_drift_tests_verdict env st test_cases m :
  SentenceTransformer env "all-MiniLM-L6-v2" = Ret m ->
  run_drift_tests env st test_cases =
    Ret (forallb (default_case_passes m) test_cases).
Proof.
  intros Hm. unfold run_drift_tests. rewrite init_unfold. simpl.
  change (model_name_for "sentence-transformers") with "all-MiniLM-L6-v2".
  rewrite Hm. simpl. f_equal. unfold suite_results, verdict.
  set (self := Engine "sqlite" "sentence-transformers" m None).
  destruct (run_cases_default_engine self st test_cases
              ltac:(discriminate) (Results 0 0 [])) as (r' & -> & Hf).
  simpl in *. rewrite Hf. apply (no_failing_case (default_case_passes m)).
Qed.

End SuiteOnEngine.

(** ** Further concrete runs *)

Lemma search_results_from_rows_witness :
  Forall (fun x => exists i,
            from_row (response_of Doubles.two_entries) 0.7%float i x)
    [Doubles.first_result].
Proof.
  apply (search_results_from_rows Doubles.chroma_engine Doubles.two_rows
           "q" 5 0.7%float Doubles.mem_collection [[1%float]]
           (response_of Doubles.two_entries) [Doubles.first_result]
           eq_refl eq_refl eq_refl eq_refl eq_refl).
Defined.

Lemma search_length_bounded_witness :
  (length [Doubles.first_result] <= length ["d1"; "d2"])%nat.
Proof.
  apply (search_length_bounded Doubles.chroma_engine Doubles.two_rows
           "q" 5 0.7%float Doubles.mem_collection [[1%float]]
           (response_of Doubles.two_entries) ["d1"; "d2"]
           [Doubles.first_result]
           eq_refl eq_refl eq_refl eq_refl eq_refl eq_refl).
Defined.

Lemma search_short_distances_witness :
  search Doubles.short_distances_engine [] "q" 5 0%float = Ret [].
Proof.
  apply (search_short_distances Doubles.short_distances_engine [] "q" 5
           0%float Doubles.short_distances_collection [[1%float]]
           Doubles.short_distances_answer ["a"; "b"] [0.1%float]
           eq_refl eq_refl eq_refl eq_refl eq_refl eq_refl).
  simpl. lia.
Defined.

Lemma search_nan_witness :
  (is_nan 0.7%float = true -> [Doubles.first_result] = []) /\
  Forall (fun x => is_nan (distance x) = false /\
                   is_nan (similarity x) = false)
    [Doubles.first_result].
Proof.
  apply (search_nan Doubles.chroma_engine Doubles.two_rows "q" 5 0.7%float
           [Doubles.first_result] eq_refl eq_refl).
Defined.

Lemma search_keeps_distance_order_witness :
  StronglySorted (fun x y => float_le (distance x) (distance y))
    [Doubles.first_result; Doubles.second_result].
Proof.
  apply (search_keeps_distance_order Doubles.chroma_engine Doubles.two_rows
           "q" 5 0%float Doubles.mem_collection [[1%float]]
           Doubles.two_entries
           [Doubles.first_result; Doubles.second_result]
           eq_refl eq_refl eq_refl eq_refl).
  - repeat constructor.
  - reflexivity.
Defined.

Lemma init_attributes_witness :
  db_type Doubles.chroma_engine = "chroma" /\
  embedding_model Doubles.chroma_engine = "sentence-transformers" /\
  (db_type Doubles.chroma_engine = "chroma" ->
   exists c, collection Doubles.chroma_engine = Some c /\
             get_or_create_collection Doubles.env_ok
               "CustomerDocs_documents" = Ret c) /\
  (db_type Doubles.chroma_engine <> "chroma" ->
   collection Doubles.chroma_engine = None).
Proof.
  apply (init_attributes Doubles.env_ok (Some "chroma") None
           Doubles.chroma_engine eq_refl).
Defined.

Lemma init_model_fallback_witness :
  SentenceTransformer Doubles.env_ok "all-MiniLM-L6-v2" =
    Ret Doubles.model_ok /\
  embedding_model
    (Engine "chroma" "my-model" Doubles.model_ok
       (Some Doubles.mem_collection)) = "my-model".
Proof.
  destruct (init_model_fallback Doubles.env_ok (Some "chroma") "my-model"
              (Engine "chroma" "my-model" Doubles.model_ok
                 (Some Doubles.mem_collection))
              ltac:(discriminate) eq_refl) as (Hm & Hn & _).
  exact (conj Hm Hn).
Defined.

Lemma get_stats_fields_witness :
  exists c count,
    collection Doubles.chroma_engine = Some c /\
    coll_count c Doubles.two_rows = Ret count /\
    stats_record Doubles.chroma_engine 2 !! "total_documents"
      = Some (VInt count) /\
    stats_record Doubles.chroma_engine 2 !! "database_type"
      = Some (VStr "chroma") /\
    stats_record Doubles.chroma_engine 2 !! "embedding_model"
      = Some (VStr (embedding_model Doubles.chroma_engine)) /\
    stats_record Doubles.chroma_engine 2 !! "error" = None.
Proof.
  apply (get_stats_fields Doubles.chroma_engine Doubles.two_rows
           (stats_record Doubles.chroma_engine 2) eq_refl).
  eexists. reflexivity.
Defined.

Lemma add_documents_writes_only_through_add_witness :
  db_type Doubles.chroma_engine = "chroma" /\
  exists c embeddings,
    collection Doubles.chroma_engine = Some c /\
    encode (model Doubles.chroma_engine)
      (doc_content <$> [Document "x" "a text" None]) = Ret embeddings /\
    (add_documents Doubles.chroma_engine [Document "x" "a text" None]
       Doubles.two_rows).2 =
      (add_call c Doubles.two_rows [Document "x" "a text" None]
         embeddings).2.
Proof.
  apply (add_documents_writes_only_through_add Doubles.chroma_engine
           [Document "x" "a text" None] Doubles.two_rows).
  intros H. apply (f_equal length) in H. vm_compute in H. discriminate.
Defined.

Lemma default_engine_ignores_store_witness :
  add_documents Doubles.sqlite_engine Doubles.dup_batch Doubles.two_rows =
    (Ret None, Doubles.two_rows) /\
  get_stats Doubles.sqlite_engine Doubles.two_rows = Ret stats_error.
Proof.
  destruct (default_engine_ignores_store Doubles.env_ok
              Doubles.sqlite_engine eq_refl Doubles.two_rows)
    as (Hadd & Hstats & _).
  exact (conj (Hadd Doubles.dup_batch) Hstats).
Defined.

Lemma run_drift_tests_verdict_witness :
  run_drift_tests Doubles.env_ok Doubles.two_rows
    [TestCase "basic_retrieval" "q" None;
     TestCase "strict_retrieval" "q" (Some 0.95%float)] = Ret false.
Proof.
  apply (run_drift_tests_verdict Doubles.env_ok Doubles.two_rows
           [TestCase "basic_retrieval" "q" None;
            TestCase "strict_retrieval" "q" (Some 0.95%float)]
           Doubles.model_ok eq_refl).
Defined.

(** ** run_drift_tests as a whole *)

Section DriftRun.
Context {S : Type}.
Implicit Types (env : Env S) (self : engine S) (st : S)
  (tc : test_case) (r : results).



(** The engine [run_drift_tests] builds, and the value it returns. *)
Lemma drift_results_built env st test_cases self :
  __init__ env None None = Ret self ->
  drift_results env st test_cases =
    Ret (suite_results (search_query_only self st) test_cases) /\
  run_drift_tests env st test_cases =
    Ret (verdict (suite_results (search_query_only self st) test_cases)).
Proof.
  intros Hself. unfold drift_results, run_drift_tests.
  rewrite Hself. split; reflexivity.
Qed.


(** C4 (as amended).  A search that fails does not raise: [search]
    returns [], so the harness records the case as FAILED with the reason
    'No search results returned' (as PASSED when the case's name has the
    no-results marker), never as ERROR, and the failure's message is not
    in the report.  The loop goes on: every case of the suite has its
    record.  The report has a passed and a failed counter and no other;
    the failed search is counted as a failure, the verdict is
    [failed == 0], and a suite with such a case (one without the marker)
    is not successful. *)
Theorem drift_failed_search_recorded env st m before tc after e :
  SentenceTransformer env "all-MiniLM-L6-v2" = Ret m ->
  encode m [input tc] = Raise e ->
  exists r,
    drift_results env st (before ++ tc :: after) = Ret r /\
    run_drift_tests env st (before ++ tc :: after) = Ret (verdict r) /\
    tests r !! length before =
      Some (if str_contains "no_results_handling" (name tc)
            then TestRecord (name tc) PASSED None
                   (Some (Text "Correctly handled no results"))
            else TestRecord (name tc) FAILED None
                   (Some (Text "No search results returned"))) /\
    test_name <$> tests r = name <$> (before ++ tc :: after) /\
    count_status ERROR (tests r) = 0 /\
    passed r = count_status PASSED (tests r) /\
    failed r = count_status FAILED (tests r) /\
    (verdict r = true <-> failed r = 0) /\
    (str_contains "no_results_handling" (name tc) = false ->
     verdict r = false).
Proof.
  intros Hm He.
  set (self := Engine "sqlite" "sentence-transformers" m None : engine S).
  assert (Hself : __init__ env None None = Ret self).
  { rewrite init_unfold. simpl.
    change (model_name_for "sentence-transformers") with "all-MiniLM-L6-v2".
    rewrite Hm. reflexivity. }
  destruct (drift_results_built env st (before ++ tc :: after) self Hself)
    as [Hd Hr].
  exists (suite_results (search_query_only self st) (before ++ tc :: after)).
  split; [exact Hd|]. split; [exact Hr|].
  assert (Hempty : search_query_only self st (input tc) = Ret []).
  { unfold search_query_only. rewrite search_mock_cases by discriminate.
    simpl. rewrite He. reflexivity. }
  unfold suite_results.
  destruct (run_cases_on_engine self st before (Results 0 0 []))
    as (r1 & records1 & H1 & Ht1 & Hlen1 & _ & _ & Hf1).
  pose proof (run_case_empty (search_query_only self st) tc r1 Hempty)
    as H2.
  set (r2 := if str_contains "no_results_handling" (name tc)
             then Results (passed r1 + 1) (failed r1)
                    (tests r1 ++ [TestRecord (name tc) PASSED None
                       (Some (Text "Correctly handled no results"))])
             else Results (passed r1) (failed r1 + 1)
                    (tests r1 ++ [TestRecord (name tc) FAILED None
                       (Some (Text "No search results returned"))])) in H2.
  destruct (run_cases_on_engine self st after r2)
    as (r3 & records3 & H3 & Ht3 & _ & _ & _ & Hf3).
  assert (Hrun : run_cases (search_query_only self st)
                   (before ++ tc :: after) (Results 0 0 []) = (Ret tt, r3)).
  { rewrite (run_cases_app _ _ _ _ _ H1).
    rewrite (run_cases_cons _ _ _ _ _ H2). exact H3. }
  destruct (run_cases_on_engine self st (before ++ tc :: after)
              (Results 0 0 []))
    as (r' & records & Hrun' & Ht & _ & Herr & Hp & Hf).
  destruct (run_cases_shape (search_query_only self st)
              (before ++ tc :: after) (Results 0 0 []))
    as (r'' & records' & Hrun'' & Ht' & Hnames & _).
  rewrite Hrun in Hrun', Hrun''. injection Hrun' as <-.
  injection Hrun'' as <-. rewrite Hrun. simpl in *.
  split.
  - rewrite Ht3. subst r2. simpl in Ht1.
    destruct (str_contains _ _); simpl; rewrite Ht1, <- app_assoc; simpl;
      apply list_lookup_middle; symmetry; exact Hlen1.
  - split; [rewrite Ht'; exact Hnames|].
    rewrite Ht. split; [exact Herr|]. split; [lia|]. split; [lia|].
    split; [unfold verdict; apply Z.eqb_eq|].
    intros Hmark. unfold verdict. apply Z.eqb_neq.
    pose proof (count_status_nonneg FAILED records1).
    pose proof (count_status_nonneg FAILED records3).
    subst r2. rewrite Hmark in Hf3. simpl in *. lia.
Qed.

(** A case as loaded, name and input present, runs as the case it is. *)
Lemma run_case_dict_well_formed search_call tc r :
  run_case_dict search_call (dict_of_case tc) r = run_case search_call tc r.
Proof. destruct tc. reflexivity. Qed.

Lemma run_case_dicts_well_formed search_call test_cases : forall r,
  run_case_dicts search_call (dict_of_case <$> test_cases) r =
  run_cases search_call test_cases r.
Proof.
  induction test_cases as [|tc rest IH]; intros r; [reflexivity|].
  rewrite fmap_cons. simpl. unfold mbind, pyst_bind.
  rewrite run_case_dict_well_formed.
  destruct (run_case search_call tc r) as [[[]|e] r1]; [apply IH|done].
Qed.

(** On a configuration that loads and is well formed,
    [run_drift_tests_from] is [run_drift_tests] on its cases. *)
Lemma run_drift_tests_from_well_formed env st test_cases :
  run_drift_tests_from
    (Ret (ConfigDict (Some (dict_of_case <$> test_cases)))) env st =
  run_drift_tests env st test_cases.
Proof.
  unfold run_drift_tests_from, run_drift_tests. simpl.
  destruct (__init__ env None None) as [self|e]; simpl; [|reflexivity].
  rewrite run_case_dicts_well_formed. unfold suite_results.
  destruct (run_cases_continues (search_query_only self st) test_cases
              (Results 0 0 [])) as (r' & -> & _).
  reflexivity.
Qed.





End DriftRun.

(** ** Runs of the whole harness *)


(** The threshold is read by an engine with [db_type] "chroma", which the
    harness does not build: there the single-argument call filters at
    0.7 and leaves out the store's second row (similarity 0.5), which a
    call with threshold 0 returns. *)
Example default_threshold_filters_on_chroma :
  search_query_only Doubles.chroma_engine Doubles.two_rows "q" <>
  search Doubles.chroma_engine Doubles.two_rows "q" top_k_default 0%float.
Proof.
  intros H.
  apply (f_equal (fun m => match m with
                           | Ret l => length l
                           | Raise _ => 0%nat
                           end)) in H.
  vm_compute in H. discriminate.
Qed.

Lemma drift_failed_search_recorded_witness :
  exists r,
    drift_results Doubles.env_encode_fails Doubles.two_rows
      ([] ++ TestCase "basic_retrieval" "q" None
          :: [TestCase "no_results_handling_unknown" "zzzz" None]) = Ret r /\
    tests r !! 0%nat =
      Some (TestRecord "basic_retrieval" FAILED None
              (Some (Text "No search results returned"))) /\
    count_status ERROR (tests r) = 0 /\
    verdict r = false.
Proof.
  destruct (drift_failed_search_recorded Doubles.env_encode_fails
              Doubles.two_rows Doubles.model_down []
              (TestCase "basic_retrieval" "q" None)
              [TestCase "no_results_handling_unknown" "zzzz" None]
              (Exn "RuntimeError" "model unavailable") eq_refl eq_refl)
    as (r & Hd & _ & Hrec & _ & Herr & _ & _ & _ & Hverdict).
  exists r. split; [exact Hd|]. split; [exact Hrec|].
  split; [exact Herr|]. apply Hverdict. reflexivity.
Defined.

(** The search of the one case fails (the model cannot embed its input):
    the record is FAILED with the reason of an empty result; there is no
    ERROR record, and the model's message is nowhere in the report. *)
Lemma drift_failed_search_counterexample :
  (exists e, encode Doubles.model_down ["q"] = Raise e) /\
  exists r,
    drift_results Doubles.env_encode_fails Doubles.two_rows
      [TestCase "basic_retrieval" "q" None] = Ret r /\
    tests r = [TestRecord "basic_retrieval" FAILED None
                 (Some (Text "No search results returned"))] /\
    ~ (exists t, t ∈ tests r /\ test_status t = ERROR).
Proof.
  split; [eexists; reflexivity|].
  eexists. split; [reflexivity|]. split; [reflexivity|].
  intros (t & Hin & Hs). vm_compute in Hin.
  apply list_elem_of_singleton in Hin. subst t. discriminate.
Qed.

(** A loaded case without 'input' does not stop the run: the [KeyError]
    is raised inside the [try], and the case is recorded as ERROR. *)
Example case_without_input_is_recorded :
  run_case_dicts (search_query_only Doubles.sqlite_engine Doubles.two_rows)
    [CaseDict (Some "no_input") None None] (Results 0 0 []) =
  (Ret tt,
   Results 0 1 [TestRecord "no_input" ERROR None (Some (Text "'input'"))]).
Proof. reflexivity. Qed.

(** A loaded case without 'name' stops the run at line 37. *)
Example case_without_name_stops_the_run :
  run_drift_tests_from
    (Ret (ConfigDict (Some [CaseDict None (Some "q") None])))
    Doubles.env_ok Doubles.two_rows = Raise (KeyError "name").
Proof. reflexivity. Qed.
